(** * gyt: a shallow embedding of [models.py] and of the commands of [cli.py]

    The development follows the two source files.  Python values are
    modelled as follows.

    - [str] is a Rocq [string]: the string stands for the UTF-8 bytes of the
      text, so that [str.encode()] is the list of its characters' codes.
    - a [datetime] is the record of its fields; its time zone is [None] (what
      [datetime.now()] gives) or a fixed offset (what [fromisoformat] gives).
    - a value read from a JSON document is a [json] tree; a [dict] is an
      association list in insertion order.
    - a file under [.gyt] holds a text; [json.dumps] and [json.loads] are
      taken at the level of documents (see [text]).
    - operations that raise return in [result]; operations on the repository
      thread a [world] (the [.gyt] directory and the trace of effects). *)

From Stdlib Require Import ZArith List String Ascii Bool Lia DecimalString.
Import ListNotations.

Local Open Scope string_scope.
Local Open Scope Z_scope.

(** ** Exceptions and results *)

Inductive exn : Type :=
| KeyError (key : string)
| TypeError
| ValueError
| AttributeError
| FileNotFoundError
| JSONDecodeError
| Exit (code : Z)          (* typer.Exit(code) *)
| Untyped.                 (* a field holds a value outside its declared type:
                              Python carries it along unchecked, the typed
                              embedding stops there *)

Inductive result (A : Type) : Type :=
| Ok (a : A)
| Raise (e : exn).
Arguments Ok {A} a.
Arguments Raise {A} e.

Definition rbind {A B} (r : result A) (k : A -> result B) : result B :=
  match r with
  | Ok a => k a
  | Raise e => Raise e
  end.

Declare Scope result_scope.
Delimit Scope result_scope with result.
Notation "'let?' x ':=' r 'in' k" := (rbind r (fun x => k))
  (at level 10, x pattern, r at level 100, k at level 200) : result_scope.
Local Open Scope result_scope.

(** [[f(x) for x in xs]] for an [f] that may raise: the first exception wins. *)
Fixpoint traverse {A B} (f : A -> result B) (xs : list A) : result (list B) :=
  match xs with
  | [] => Ok []
  | x :: xs' =>
      let? y := f x in
      let? ys := traverse f xs' in
      Ok (y :: ys)
  end.

(** ** Decimal fields of fixed width *)

Definition digit (d : Z) : ascii := ascii_of_nat (48 + Z.to_nat d).

Definition digit_val (c : ascii) : option Z :=
  let n := Z.of_nat (nat_of_ascii c) in
  if (48 <=? n) && (n <=? 57) then Some (n - 48) else None.

(** ["%0wd" % v] for [0 <= v < 10^w]. *)
Fixpoint zpad (w : nat) (v : Z) : string :=
  match w with
  | O => ""
  | S w' => String (digit (v / 10 ^ Z.of_nat w')) (zpad w' (v mod 10 ^ Z.of_nat w'))
  end.

(** Reads exactly [w] decimal digits, most significant first. *)
Fixpoint read_digits (w : nat) (acc : Z) (s : string) : option (Z * string) :=
  match w with
  | O => Some (acc, s)
  | S w' =>
      match s with
      | String c s' =>
          match digit_val c with
          | Some d => read_digits w' (acc * 10 + d) s'
          | None => None
          end
      | EmptyString => None
      end
  end.

Definition expect (c : ascii) (s : string) : option string :=
  match s with
  | String c' s' => if Ascii.eqb c c' then Some s' else None
  | EmptyString => None
  end.

(** [s.find(c)]: the text before and after the first [c]. *)
Fixpoint find_char (c : ascii) (s : string) : option (string * string) :=
  match s with
  | EmptyString => None
  | String c' s' =>
      if Ascii.eqb c c' then Some ("", s')
      else match find_char c s' with
           | Some (a, b) => Some (String c' a, b)
           | None => None
           end
  end.

(** ** datetime *)

Record datetime : Type := mk_datetime {
  year : Z;
  month : Z;
  day : Z;
  hour : Z;
  minute : Z;
  second : Z;
  microsecond : Z;
  tzinfo : option Z        (* UTC offset in microseconds of a fixed-offset zone *)
}.

Definition is_leap (y : Z) : bool :=
  (y mod 4 =? 0) && (negb (y mod 100 =? 0) || (y mod 400 =? 0)).

Definition days_in_month (y m : Z) : Z :=
  if m =? 2 then (if is_leap y then 29 else 28)
  else if (m =? 4) || (m =? 6) || (m =? 9) || (m =? 11) then 30
  else 31.

Definition in_range (lo v hi : Z) : bool := (lo <=? v) && (v <=? hi).

Definition day_us : Z := 86400000000.

(** The checks of the [datetime] and [timezone] constructors. *)
Definition valid_datetime (d : datetime) : bool :=
  in_range 1 (year d) 9999 && in_range 1 (month d) 12 &&
  in_range 1 (day d) (days_in_month (year d) (month d)) &&
  in_range 0 (hour d) 23 && in_range 0 (minute d) 59 &&
  in_range 0 (second d) 59 && in_range 0 (microsecond d) 999999 &&
  match tzinfo d with
  | None => true
  | Some off => (- day_us <? off) && (off <? day_us)
  end.

(** [_format_time] with [timespec='auto']. *)
Definition format_time (hh mm ss us : Z) : string :=
  zpad 2 hh ++ ":" ++ zpad 2 mm ++ ":" ++ zpad 2 ss ++
  (if us =? 0 then "" else "." ++ zpad 6 us).

(** [_format_offset]. *)
Definition format_offset (off : option Z) : string :=
  match off with
  | None => ""
  | Some o =>
      let sign := if o <? 0 then "-" else "+" in
      let a := Z.abs o in
      let hh := a / 3600000000 in
      let r := a mod 3600000000 in
      let mm := r / 60000000 in
      let r' := r mod 60000000 in
      let ss := r' / 1000000 in
      let us := r' mod 1000000 in
      sign ++ zpad 2 hh ++ ":" ++ zpad 2 mm ++
      (if r' =? 0 then ""
       else ":" ++ zpad 2 ss ++ (if us =? 0 then "" else "." ++ zpad 6 us))
  end.

(** [datetime.isoformat()]. *)
Definition isoformat (d : datetime) : string :=
  zpad 4 (year d) ++ "-" ++ zpad 2 (month d) ++ "-" ++ zpad 2 (day d) ++ "T" ++
  format_time (hour d) (minute d) (second d) (microsecond d) ++
  format_offset (tzinfo d).

(** [_parse_hh_mm_ss_ff]: [HH[:MM[:SS[.fff[fff]]]]], the whole string. *)
Definition parse_fraction (s : string) : option Z :=
  match read_digits 3 0 s with
  | Some (ms, "") => Some (ms * 1000)
  | Some (ms, rest) =>
      match read_digits 3 ms rest with
      | Some (us, "") => Some us
      | _ => None
      end
  | None => None
  end.

Definition parse_hh_mm_ss_ff (s : string) : option (Z * Z * Z * Z) :=
  match read_digits 2 0 s with
  | None => None
  | Some (hh, "") => Some (hh, 0, 0, 0)
  | Some (hh, s1) =>
      match expect ":" s1 with
      | None => None
      | Some s2 =>
          match read_digits 2 0 s2 with
          | None => None
          | Some (mm, "") => Some (hh, mm, 0, 0)
          | Some (mm, s3) =>
              match expect ":" s3 with
              | None => None
              | Some s4 =>
                  match read_digits 2 0 s4 with
                  | None => None
                  | Some (ss, "") => Some (hh, mm, ss, 0)
                  | Some (ss, s5) =>
                      match expect "." s5 with
                      | None => None
                      | Some s6 =>
                          match parse_fraction s6 with
                          | Some us => Some (hh, mm, ss, us)
                          | None => None
                          end
                      end
                  end
              end
          end
      end
  end.

(** The split of [_parse_isoformat_time]: at the first ["-"], else at the
    first ["+"]. *)
Definition split_offset (s : string) : string * option (Z * string) :=
  match find_char "-" s with
  | Some (t, z) => (t, Some (-1, z))
  | None =>
      match find_char "+" s with
      | Some (t, z) => (t, Some (1, z))
      | None => (s, None)
      end
  end.

Definition parse_offset (sign : Z) (z : string) : option Z :=
  let n := String.length z in
  if Nat.eqb n 5 || Nat.eqb n 8 || Nat.eqb n 15 then
    match parse_hh_mm_ss_ff z with
    | Some (hh, mm, ss, us) =>
        Some (sign * (((hh * 60 + mm) * 60 + ss) * 1000000 + us))
    | None => None
    end
  else None.

Definition parse_isoformat_time (s : string) : option (Z * Z * Z * Z * option Z) :=
  match s with
  | "" => Some (0, 0, 0, 0, None)
  | _ =>
      let '(t, z) := split_offset s in
      match parse_hh_mm_ss_ff t with
      | None => None
      | Some (hh, mm, ss, us) =>
          match z with
          | None => Some (hh, mm, ss, us, None)
          | Some (sign, zs) =>
              match parse_offset sign zs with
              | Some off => Some (hh, mm, ss, us, Some off)
              | None => None
              end
          end
      end
  end.

(** [_parse_isoformat_date] on the first ten characters, [YYYY-MM-DD]. *)
Definition parse_isoformat_date (s : string) : option (Z * Z * Z * string) :=
  match read_digits 4 0 s with
  | None => None
  | Some (y, s1) =>
      match expect "-" s1 with
      | None => None
      | Some s2 =>
          match read_digits 2 0 s2 with
          | None => None
          | Some (m, s3) =>
              match expect "-" s3 with
              | None => None
              | Some s4 =>
                  match read_digits 2 0 s4 with
                  | None => None
                  | Some (d, rest) => Some (y, m, d, rest)
                  end
              end
          end
      end
  end.

(** [datetime.fromisoformat]: the date, one separator character of any kind,
    the time; the constructor then checks the ranges.  This is the grammar of
    what [isoformat] writes, [YYYY-MM-DD[*HH[:MM[:SS[.fff[fff]]]][+HH:MM[:SS[.ffffff]]]]];
    later versions of the library read further ISO 8601 forms, which no
    operation of the repository writes. *)
Definition fromisoformat (s : string) : result datetime :=
  match parse_isoformat_date s with
  | None => Raise ValueError
  | Some (y, m, d, rest) =>
      let tstr := match rest with String _ t => t | "" => "" end in
      match parse_isoformat_time tstr with
      | None => Raise ValueError
      | Some (hh, mm, ss, us, tz) =>
          let dt := mk_datetime y m d hh mm ss us tz in
          if valid_datetime dt then Ok dt else Raise ValueError
      end
  end.

(** ** JSON values and the Python operations applied to them *)

#[local] Set Warnings "-register-all".

Inductive json : Type :=
| JNull
| JBool (b : bool)
| JNum (n : Z)                          (* integers; other numbers are left out *)
| JStr (s : string)
| JArr (items : list json)
| JObj (entries : list (string * json)).  (* a dict, in insertion order *)

Fixpoint assoc {V} (k : string) (l : list (string * V)) : option V :=
  match l with
  | [] => None
  | (k', v) :: l' => if String.eqb k k' then Some v else assoc k l'
  end.

(** [d[k] = v] on a dict: an existing key keeps its place, a new one goes last. *)
Fixpoint assoc_set {V} (k : string) (v : V) (l : list (string * V)) : list (string * V) :=
  match l with
  | [] => [(k, v)]
  | (k', v') :: l' =>
      if String.eqb k k' then (k, v) :: l' else (k', v') :: assoc_set k v l'
  end.

Fixpoint is_prefix (p s : string) : bool :=
  match p, s with
  | EmptyString, _ => true
  | String a p', String b s' => Ascii.eqb a b && is_prefix p' s'
  | String _ _, EmptyString => false
  end.

Fixpoint is_substring (p s : string) : bool :=
  is_prefix p s ||
  match s with
  | EmptyString => false
  | String _ s' => is_substring p s'
  end.

Fixpoint chars (s : string) : list string :=
  match s with
  | EmptyString => []
  | String c s' => String c "" :: chars s'
  end.

Module Py.

(** [x[k]] for a string [k]. *)
Definition getitem (x : json) (k : string) : result json :=
  match x with
  | JObj d => match assoc k d with Some v => Ok v | None => Raise (KeyError k) end
  | _ => Raise TypeError
  end.

(** [x.get(k, default)]. *)
Definition get (x : json) (k : string) (default : json) : result json :=
  match x with
  | JObj d => Ok (match assoc k d with Some v => v | None => default end)
  | _ => Raise AttributeError
  end.

(** [k in x] for a string [k]. *)
Definition contains (x : json) (k : string) : result bool :=
  match x with
  | JObj d => Ok (match assoc k d with Some _ => true | None => false end)
  | JArr l =>
      Ok (existsb (fun y => match y with JStr s => String.eqb s k | _ => false end) l)
  | JStr s => Ok (is_substring k s)
  | _ => Raise TypeError
  end.

(** [x[k] = v] for a string [k]. *)
Definition setitem (x : json) (k : string) (v : json) : result json :=
  match x with
  | JObj d => Ok (JObj (assoc_set k v d))
  | _ => Raise TypeError
  end.

(** [for y in x]. *)
Definition iter (x : json) : result (list json) :=
  match x with
  | JArr l => Ok l
  | JObj d => Ok (map (fun kv => JStr (fst kv)) d)
  | JStr s => Ok (map JStr (chars s))
  | _ => Raise TypeError
  end.

(** [bool(x)]. *)
Definition truthy (x : json) : bool :=
  match x with
  | JNull => false
  | JBool b => b
  | JNum n => negb (n =? 0)
  | JStr s => negb (String.eqb s "")
  | JArr l => match l with [] => false | _ => true end
  | JObj d => match d with [] => false | _ => true end
  end.

(** The typed view of a value where the source declares [str]. *)
Definition as_str (x : json) : result string :=
  match x with JStr s => Ok s | _ => Raise Untyped end.

(** ... where it declares [List[str]]. *)
Definition as_str_list (x : json) : result (list string) :=
  match x with JArr l => traverse as_str l | _ => Raise Untyped end.

(** ... where it declares [Optional[str]]. *)
Definition as_opt_str (x : json) : result (option string) :=
  match x with
  | JNull => Ok None
  | JStr s => Ok (Some s)
  | _ => Raise Untyped
  end.

(** [datetime.fromisoformat(x)]: a [TypeError] unless [x] is a [str]. *)
Definition fromisoformat (x : json) : result datetime :=
  match x with JStr s => fromisoformat s | _ => Raise TypeError end.

End Py.

(** ** Milestone *)

Module Milestone.

Record t : Type := mk {
  message : string;
  timestamp : datetime;
  tags : list string
}.

Definition to_dict (self : t) : json :=
  JObj [ ("message", JStr (message self));
         ("timestamp", JStr (isoformat (timestamp self)));
         ("tags", JArr (map JStr (tags self))) ].

Definition from_dict (data : json) : result t :=
  let? m := Py.getitem data "message" in
  let? ts := Py.getitem data "timestamp" in
  let? ts := Py.fromisoformat ts in
  let? tg := Py.get data "tags" (JArr []) in
  let? m := Py.as_str m in
  let? tg := Py.as_str_list tg in
  Ok (mk m ts tg).

Definition valid (m : t) : bool := valid_datetime (timestamp m).

End Milestone.

(** ** Commit *)

Module Commit.

Record t : Type := mk {
  message : string;
  milestones : list Milestone.t;
  timestamp : datetime;
  commit_hash : option string
}.

Definition to_dict (self : t) : json :=
  JObj [ ("message", JStr (message self));
         ("milestones", JArr (map Milestone.to_dict (milestones self)));
         ("timestamp", JStr (isoformat (timestamp self)));
         ("commit_hash",
          match commit_hash self with Some h => JStr h | None => JNull end) ].

Definition from_dict (data : json) : result t :=
  let? m := Py.getitem data "message" in
  let? ms := Py.getitem data "milestones" in
  let? ms := Py.iter ms in
  let? ms := traverse Milestone.from_dict ms in
  let? ts := Py.getitem data "timestamp" in
  let? ts := Py.fromisoformat ts in
  let? h := Py.get data "commit_hash" JNull in
  let? m := Py.as_str m in
  let? h := Py.as_opt_str h in
  Ok (mk m ms ts h).

Definition valid (c : t) : bool :=
  valid_datetime (timestamp c) && forallb Milestone.valid (milestones c).

End Commit.

(** ** SHA-256 (FIPS 180-4), as [hashlib.sha256(bytes).hexdigest()] *)

Module Sha256.

Definition wrap (x : Z) : Z := x mod 2 ^ 32.
Definition add (x y : Z) : Z := wrap (x + y).
Definition rotr (n x : Z) : Z :=
  wrap (Z.lor (Z.shiftr x n) (Z.shiftl x (32 - n))).
Definition shr (n x : Z) : Z := Z.shiftr x n.
Definition xor3 (x y z : Z) : Z := Z.lxor (Z.lxor x y) z.

Definition ch (x y z : Z) : Z :=
  Z.lxor (Z.land x y) (Z.land (Z.lxor x (2 ^ 32 - 1)) z).
Definition maj (x y z : Z) : Z :=
  xor3 (Z.land x y) (Z.land x z) (Z.land y z).
Definition big_sigma0 (x : Z) : Z := xor3 (rotr 2 x) (rotr 13 x) (rotr 22 x).
Definition big_sigma1 (x : Z) : Z := xor3 (rotr 6 x) (rotr 11 x) (rotr 25 x).
Definition small_sigma0 (x : Z) : Z := xor3 (rotr 7 x) (rotr 18 x) (shr 3 x).
Definition small_sigma1 (x : Z) : Z := xor3 (rotr 17 x) (rotr 19 x) (shr 10 x).

Definition round_constants : list Z :=
  [ 0x428A2F98; 0x71374491; 0xB5C0FBCF; 0xE9B5DBA5;
    0x3956C25B; 0x59F111F1; 0x923F82A4; 0xAB1C5ED5;
    0xD807AA98; 0x12835B01; 0x243185BE; 0x550C7DC3;
    0x72BE5D74; 0x80DEB1FE; 0x9BDC06A7; 0xC19BF174;
    0xE49B69C1; 0xEFBE4786; 0x0FC19DC6; 0x240CA1CC;
    0x2DE92C6F; 0x4A7484AA; 0x5CB0A9DC; 0x76F988DA;
    0x983E5152; 0xA831C66D; 0xB00327C8; 0xBF597FC7;
    0xC6E00BF3; 0xD5A79147; 0x06CA6351; 0x14292967;
    0x27B70A85; 0x2E1B2138; 0x4D2C6DFC; 0x53380D13;
    0x650A7354; 0x766A0ABB; 0x81C2C92E; 0x92722C85;
    0xA2BFE8A1; 0xA81A664B; 0xC24B8B70; 0xC76C51A3;
    0xD192E819; 0xD6990624; 0xF40E3585; 0x106AA070;
    0x19A4C116; 0x1E376C08; 0x2748774C; 0x34B0BCB5;
    0x391C0CB3; 0x4ED8AA4A; 0x5B9CCA4F; 0x682E6FF3;
    0x748F82EE; 0x78A5636F; 0x84C87814; 0x8CC70208;
    0x90BEFFFA; 0xA4506CEB; 0xBEF9A3F7; 0xC67178F2 ].

(** The eight working words. *)
Record state : Type := mk_state {
  ha : Z; hb : Z; hc : Z; hd : Z; he : Z; hf : Z; hg : Z; hh : Z
}.

Definition initial : state :=
  mk_state 0x6A09E667 0xBB67AE85 0x3C6EF372 0xA54FF53A
           0x510E527F 0x9B05688C 0x1F83D9AB 0x5BE0CD19.

(** Padding: a [0x80] byte, zeros up to 56 modulo 64, the bit length on
    eight bytes. *)
Definition be_bytes (n : nat) (x : Z) : list Z :=
  map (fun i => (x / 2 ^ (8 * Z.of_nat i)) mod 256) (rev (seq 0 n)).

Definition pad (msg : list Z) : list Z :=
  let len := Z.of_nat (List.length msg) in
  let zeros := Z.to_nat ((55 - len) mod 64) in
  msg ++ [128] ++ repeat 0 zeros ++ be_bytes 8 (8 * len).

Fixpoint be_words (fuel : nat) (bytes : list Z) : list Z :=
  match fuel, bytes with
  | S fuel', b0 :: b1 :: b2 :: b3 :: rest =>
      (((b0 * 256 + b1) * 256 + b2) * 256 + b3) :: be_words fuel' rest
  | _, _ => []
  end.

(** The message schedule: [ws] holds the words computed so far. *)
Definition schedule_step (ws : list Z) : list Z :=
  let t := List.length ws in
  let at_ i := nth (t - i) ws 0 in
  ws ++ [add (add (small_sigma1 (at_ 2%nat)) (at_ 7%nat))
             (add (small_sigma0 (at_ 15%nat)) (at_ 16%nat))].

Definition schedule (block : list Z) : list Z :=
  Nat.iter 48 schedule_step block.

Definition round (s : state) (kw : Z * Z) : state :=
  let '(k, w) := kw in
  let t1 := add (add (add (hh s) (big_sigma1 (he s))) (ch (he s) (hf s) (hg s)))
                (add k w) in
  let t2 := add (big_sigma0 (ha s)) (maj (ha s) (hb s) (hc s)) in
  mk_state (add t1 t2) (ha s) (hb s) (hc s) (add (hd s) t1) (he s) (hf s) (hg s).

Definition compress (s : state) (block : list Z) : state :=
  let r := fold_left round (combine round_constants (schedule block)) s in
  mk_state (add (ha s) (ha r)) (add (hb s) (hb r)) (add (hc s) (hc r))
           (add (hd s) (hd r)) (add (he s) (he r)) (add (hf s) (hf r))
           (add (hg s) (hg r)) (add (hh s) (hh r)).

Fixpoint blocks (fuel : nat) (ws : list Z) : list (list Z) :=
  match fuel, ws with
  | S fuel', _ :: _ => firstn 16 ws :: blocks fuel' (skipn 16 ws)
  | _, _ => []
  end.

Definition digest (msg : list Z) : state :=
  let bytes := pad msg in
  let ws := be_words (List.length bytes) bytes in
  fold_left compress (blocks (List.length ws) ws) initial.

Definition hex_digit (d : Z) : ascii :=
  if d <? 10 then ascii_of_nat (48 + Z.to_nat d)
  else ascii_of_nat (87 + Z.to_nat d).

(** The [n] low hexadecimal digits of [x], most significant first. *)
Fixpoint hex (n : nat) (x : Z) : string :=
  match n with
  | O => ""
  | S n' => String (hex_digit ((x / 16 ^ Z.of_nat n') mod 16)) (hex n' x)
  end.

Definition hexdigest (msg : list Z) : string :=
  let s := digest msg in
  hex 8 (ha s) ++ hex 8 (hb s) ++ hex 8 (hc s) ++ hex 8 (hd s) ++
  hex 8 (he s) ++ hex 8 (hf s) ++ hex 8 (hg s) ++ hex 8 (hh s).

End Sha256.

(** [s.encode()]: the bytes of the text. *)
Definition encode (s : string) : list Z :=
  map (fun c => Z.of_nat (nat_of_ascii c)) (list_ascii_of_string s).

(** [s[:n]]. *)
Fixpoint prefix (n : nat) (s : string) : string :=
  match n, s with
  | S n', String c s' => String c (prefix n' s')
  | _, _ => ""
  end.

(** ** The [.gyt] directory and the effects of a run *)

(** The content of a file.  [json.loads] raises on a text that is no JSON
    document; on the text that [json.dumps(x, indent=2)] writes it gives [x]
    back; the literal ["[]"] is the text of the empty array. *)
Inductive text : Type :=
| Garbled
| Document (doc : json).

Definition json_dumps (x : json) : text := Document x.

Definition json_loads (t : text) : result json :=
  match t with
  | Document x => Ok x
  | Garbled => Raise JSONDecodeError
  end.

(** The text ["[]"]. *)
Definition empty_array : text := Document (JArr []).

Inductive path : Type := staging_file | commits_file | config_file.

Record dir : Type := mk_dir {
  staging : option text;
  commits : option text;
  config : option text
}.

Definition file (p : path) (d : dir) : option text :=
  match p with
  | staging_file => staging d
  | commits_file => commits d
  | config_file => config d
  end.

Definition store (p : path) (t : text) (d : dir) : dir :=
  match p with
  | staging_file => mk_dir (Some t) (commits d) (config d)
  | commits_file => mk_dir (staging d) (Some t) (config d)
  | config_file => mk_dir (staging d) (commits d) (Some t)
  end.

Inductive event : Type :=
| MadeDir
| Wrote (p : path) (t : text)
| Printed (line : string).

Record world : Type := mk_world {
  gyt_dir : option dir;        (* [None]: [.gyt] does not exist *)
  trace : list event           (* the effects so far, oldest first *)
}.

Definition M (A : Type) : Type := world -> result A * world.

Definition ret {A} (a : A) : M A := fun w => (Ok a, w).
Definition raise {A} (e : exn) : M A := fun w => (Raise e, w).
Definition bind {A B} (m : M A) (k : A -> M B) : M B :=
  fun w =>
    match m w with
    | (Ok a, w') => k a w'
    | (Raise e, w') => (Raise e, w')
    end.
Definition lift {A} (r : result A) : M A := fun w => (r, w).

Declare Scope gyt_scope.
Delimit Scope gyt_scope with gyt.
Notation "x <- m ;; k" := (bind m (fun x => k))
  (at level 61, m at next level, right associativity) : gyt_scope.
Notation "m ;; k" := (bind m (fun _ => k))
  (at level 61, right associativity) : gyt_scope.
Local Open Scope gyt_scope.

Definition emit (e : event) : M unit :=
  fun w => (Ok tt, mk_world (gyt_dir w) (trace w ++ [e])%list).

(** [self.gyt_dir.exists()]. *)
Definition dir_exists : M bool :=
  fun w => (Ok (match gyt_dir w with Some _ => true | None => false end), w).

(** [self.gyt_dir.mkdir(parents=True)]. *)
Definition mkdir : M unit :=
  fun w => (Ok tt, mk_world (Some (mk_dir None None None)) (trace w ++ [MadeDir])%list).

(** [p.exists()]. *)
Definition file_exists (p : path) : M bool :=
  fun w =>
    (Ok (match gyt_dir w with
         | Some d => match file p d with Some _ => true | None => false end
         | None => false
         end), w).

(** [p.read_text()]. *)
Definition read_text (p : path) : M text :=
  fun w =>
    match gyt_dir w with
    | Some d =>
        match file p d with
        | Some t => (Ok t, w)
        | None => (Raise FileNotFoundError, w)
        end
    | None => (Raise FileNotFoundError, w)
    end.

(** [p.write_text(t)]: the directory has to be there. *)
Definition write_text (p : path) (t : text) : M unit :=
  fun w =>
    match gyt_dir w with
    | Some d => (Ok tt, mk_world (Some (store p t d)) (trace w ++ [Wrote p t])%list)
    | None => (Raise FileNotFoundError, w)
    end.

(** [console.print(line)]. *)
Definition print (line : string) : M unit := emit (Printed line).

(** [key.split(".")]: never empty. *)
Fixpoint split_on (c : ascii) (s : string) : list string :=
  match s with
  | EmptyString => [""]
  | String c' s' =>
      if Ascii.eqb c c' then "" :: split_on c s'
      else match split_on c s' with
           | h :: t => String c' h :: t
           | [] => [String c' ""]
           end
  end.

(** ** Repository *)

Module Repository.

Definition default_config : json :=
  JObj [ ("user", JObj [ ("name", JStr ""); ("email", JStr "") ]);
         ("remote", JObj [ ("url", JStr "") ]) ].

Definition init : M bool :=
  e <- dir_exists ;;
  if e then ret false
  else
    mkdir ;;
    write_text staging_file empty_array ;;
    write_text commits_file empty_array ;;
    write_text config_file (json_dumps default_config) ;;
    ret true.

Definition is_initialized : M bool := dir_exists.

Definition get_staged_milestones : M (list Milestone.t) :=
  e <- file_exists staging_file ;;
  if negb e then ret []
  else
    t <- read_text staging_file ;;
    data <- lift (json_loads t) ;;
    items <- lift (Py.iter data) ;;
    lift (traverse Milestone.from_dict items).

Definition add_milestone (milestone : Milestone.t) : M unit :=
  staged <- get_staged_milestones ;;
  let staged := (staged ++ [milestone])%list in
  write_text staging_file (json_dumps (JArr (map Milestone.to_dict staged))).

Definition clear_staging : M unit :=
  write_text staging_file empty_array.

Definition get_commits : M (list Commit.t) :=
  e <- file_exists commits_file ;;
  if negb e then ret []
  else
    t <- read_text commits_file ;;
    data <- lift (json_loads t) ;;
    items <- lift (Py.iter data) ;;
    lift (traverse Commit.from_dict items).

(** The hash that [add_commit] gives to [commit]. *)
Definition hash_input (commit : Commit.t) : string :=
  isoformat (Commit.timestamp commit) ++ Commit.message commit.

Definition hash_of (commit : Commit.t) : string :=
  prefix 8 (Sha256.hexdigest (encode (hash_input commit))).

(** [add_commit] assigns to [commit.commit_hash]; the commit as it is after
    the call is the result. *)
Definition add_commit (commit : Commit.t) : M Commit.t :=
  commits <- get_commits ;;
  let commit :=
    Commit.mk (Commit.message commit) (Commit.milestones commit)
              (Commit.timestamp commit) (Some (hash_of commit)) in
  let commits := (commits ++ [commit])%list in
  write_text commits_file (json_dumps (JArr (map Commit.to_dict commits))) ;;
  ret commit.

Definition get_config : M json :=
  e <- file_exists config_file ;;
  if negb e then ret (JObj [])
  else
    t <- read_text config_file ;;
    lift (json_loads t).

(** The loop of [set_config] and the assignment after it: [current] walks
    down the dicts named by [ks]; the result is [current] as the
    assignments through it leave it. *)
Fixpoint set_path (ks : list string) (final : string) (value : json)
         (current : json) : result json :=
  match ks with
  | [] => Py.setitem current final value
  | k :: ks' =>
      let? present := Py.contains current k in
      let? current := if present then Ok current
                      else Py.setitem current k (JObj []) in
      let? child := Py.getitem current k in
      let? child := set_path ks' final value child in
      Py.setitem current k child
  end.

Definition set_config (key value : string) : M unit :=
  config <- get_config ;;
  let keys := split_on "." key in
  config <- lift (set_path (removelast keys) (last keys "") (JStr value) config) ;;
  write_text config_file (json_dumps config).

End Repository.

(** ** More of Python: slices, [enumerate], [for] loops *)

(** [l[start:]]: a negative [start] counts from the end; out of range it is
    clipped. *)
Definition slice_from {A} (start : Z) (l : list A) : list A :=
  let n := Z.of_nat (List.length l) in
  let s := if start <? 0 then Z.max 0 (n + start) else Z.min start n in
  skipn (Z.to_nat s) l.

(** [enumerate(l, start)]. *)
Fixpoint enumerate {A} (start : nat) (l : list A) : list (nat * A) :=
  match l with
  | [] => []
  | x :: l' => (start, x) :: enumerate (S start) l'
  end.

(** [for x in l: body(x)]. *)
Fixpoint for_each {A} (body : A -> M unit) (l : list A) : M unit :=
  match l with
  | [] => ret tt
  | x :: l' => body x ;; for_each body l'
  end.

(** ** The commands of [cli.py] *)

Module Cli.

(** [str(n)] for [len(...)]. *)
Definition str_nat (n : nat) : string :=
  DecimalString.NilZero.string_of_uint (Nat.to_uint n).

Definition ensure_repo : M unit :=
  ok <- Repository.is_initialized ;;
  if negb ok then
    print "[red]Not a gyt repository. Run 'gyt init' first.[/red]" ;;
    raise (Exit 1)
  else ret tt.

Definition init : M unit :=
  created <- Repository.init ;;
  if created then print "[green]Initialized empty gyt repository in .gyt/[/green]"
  else print "[yellow]Repository already initialized.[/yellow]".

(** [now] is what [datetime.now()] reads when the [Milestone] is built. *)
Definition add (message : option string) (all : bool) (now : datetime) : M unit :=
  ensure_repo ;;
  milestone <-
    (if all || match message with Some m => String.eqb m "." | None => false end
     then ret (Milestone.mk "Daily progress" now [])
     else match message with
          | Some (String c m) => ret (Milestone.mk (String c m) now [])
          | _ =>
              print "[red]Please provide a milestone message or use --all/-a[/red]" ;;
              raise (Exit 1)
          end) ;;
  Repository.add_milestone milestone ;;
  print ("[green]Added milestone:[/green] " ++ Milestone.message milestone).

(** [now] is what [datetime.now()] reads when the [Commit] is built. *)
Definition commit (message : string) (now : datetime) : M unit :=
  ensure_repo ;;
  staged <- Repository.get_staged_milestones ;;
  match staged with
  | [] =>
      print "[yellow]No milestones staged. Use 'gyt add' first.[/yellow]" ;;
      raise (Exit 1)
  | _ :: _ =>
      let commit := Commit.mk message staged now None in
      commit <- Repository.add_commit commit ;;
      Repository.clear_staging ;;
      print ("[green]Committed " ++ str_nat (List.length staged) ++
             " milestone(s):[/green] " ++ message) ;;
      print ("[dim]Commit hash: " ++
             match Commit.commit_hash commit with Some h => h | None => "None" end ++
             "[/dim]")
  end.

(** [remote or config.get("remote", {}).get("url", "")]. *)
Definition resolve_remote (remote : option string) (config : json) : result json :=
  match remote with
  | Some (String c r) => Ok (JStr (String c r))
  | _ =>
      let? section := Py.get config "remote" (JObj []) in
      Py.get section "url" (JStr "")
  end.

Definition push (remote : option string) : M unit :=
  ensure_repo ;;
  config <- Repository.get_config ;;
  remote_url <- lift (resolve_remote remote config) ;;
  if negb (Py.truthy remote_url) then
    print "[red]No remote configured. Use 'gyt config remote.url <url>' first.[/red]" ;;
    raise (Exit 1)
  else
    commits <- Repository.get_commits ;;
    match commits with
    | [] => print "[yellow]No commits to push.[/yellow]"
    | _ :: _ =>
        url <- lift (Py.as_str remote_url) ;;
        print ("[yellow]Pushing " ++ str_nat (List.length commits) ++
               " commit(s) to " ++ url ++ "...[/yellow]") ;;
        print "[dim]Note: Remote push not yet implemented. This will sync to gythub when available.[/dim]"
    end.

(** The exit status of the process: [typer.Exit(code)] gives [code], any
    other exception ends the interpreter with status 1. *)
Definition exit_code {A} (r : result A) : Z :=
  match r with
  | Ok _ => 0
  | Raise (Exit code) => code
  | Raise _ => 1
  end.

Definition is_print (e : event) : bool :=
  match e with Printed _ => true | _ => false end.

Definition is_write (e : event) : bool :=
  match e with Wrote _ _ | MadeDir => true | Printed _ => false end.

(** The line feed and the double quote that the source writes with a
    backslash, and the seven bytes that stand before the milestone message
    in [log]. *)
Definition newline : string := String (ascii_of_nat 10) "".
Definition dquote : string := String (ascii_of_nat 34) "".
Definition bullet : string :=
  String (ascii_of_nat 195) (String (ascii_of_nat 162)
  (String (ascii_of_nat 226) (String (ascii_of_nat 130) (String (ascii_of_nat 172)
  (String (ascii_of_nat 194) (String (ascii_of_nat 162) "")))))).

(** [panel s] is what [rich] prints for [Panel(s)]. *)
Definition status (panel : string -> string) : M unit :=
  ensure_repo ;;
  staged <- Repository.get_staged_milestones ;;
  print (panel "[bold]Gyt Status[/bold]") ;;
  match staged with
  | _ :: _ =>
      print (newline ++ "[green]Staged milestones:[/green]") ;;
      for_each
        (fun im => print ("  " ++ str_nat (fst im) ++ ". " ++ Milestone.message (snd im)))
        (enumerate 1 staged)
  | [] => print (newline ++ "[dim]No milestones staged[/dim]")
  end ;;
  print (newline ++ "[dim]Use 'gyt add <message>' to stage milestones[/dim]") ;;
  print ("[dim]Use 'gyt commit -m " ++ dquote ++ "message" ++ dquote ++
         "' to commit staged milestones[/dim]").

(** [f"{h}"] for an [Optional[str]]. *)
Definition show_hash (h : option string) : string :=
  match h with Some h => h | None => "None" end.

(** The body of the loop of [log]; [strftime t] is
    [t.strftime('%Y-%m-%d %H:%M:%S')]. *)
Definition log_commit (strftime : datetime -> string) (commit : Commit.t) : M unit :=
  print (newline ++ "[yellow]commit " ++ show_hash (Commit.commit_hash commit) ++
         "[/yellow]") ;;
  print ("Date:   " ++ strftime (Commit.timestamp commit)) ;;
  print (newline ++ "    " ++ Commit.message commit ++ newline) ;;
  for_each
    (fun milestone => print ("    " ++ bullet ++ " " ++ Milestone.message milestone))
    (Commit.milestones commit).

Definition log (strftime : datetime -> string) (limit : Z) : M unit :=
  ensure_repo ;;
  commits <- Repository.get_commits ;;
  match commits with
  | [] => print "[yellow]No commits yet.[/yellow]"
  | _ :: _ => for_each (log_commit strftime) (rev (slice_from (- limit) commits))
  end.

(** The loop of the one-key form of [config]:
    [for k in keys: current = current.get(k, {})]. *)
Fixpoint get_path (ks : list string) (current : json) : result json :=
  match ks with
  | [] => Ok current
  | k :: ks' =>
      let? current := Py.get current k (JObj []) in
      get_path ks' current
  end.

(** [f"{x}"]: a [str] as it is, anything else as [repr] writes it. *)
Definition fstring (repr : json -> string) (x : json) : string :=
  match x with JStr s => s | _ => repr x end.

(** [dumps x] is the text [json.dumps(x, indent=2)]. *)
Definition config (repr dumps : json -> string) (key value : option string) : M unit :=
  ensure_repo ;;
  match key, value with
  | Some (String a k), Some (String b v) =>
      Repository.set_config (String a k) (String b v) ;;
      print ("[green]Set " ++ String a k ++ " = " ++ String b v ++ "[/green]")
  | Some (String a k), _ =>
      config <- Repository.get_config ;;
      current <- lift (get_path (split_on "." (String a k)) config) ;;
      print (String a k ++ " = " ++ fstring repr current)
  | _, _ =>
      config <- Repository.get_config ;;
      print (dumps config)
  end.

End Cli.

(** ** Definitions used by the statements and the proofs *)

(** The common shape of a formatted time and a formatted offset: [HH:MM],
    then [:SS] unless [short], then the fraction unless it is zero. *)
Definition format_fields (short : bool) (hh mm ss us : Z) : string :=
  zpad 2 hh ++ ":" ++ zpad 2 mm ++
  (if short then ""
   else ":" ++ zpad 2 ss ++ (if us =? 0 then "" else "." ++ zpad 6 us)).

(** The fields of a formatted offset, after its sign. *)
Definition offset_text (o : Z) : string :=
  let a := Z.abs o in
  let r := a mod 3600000000 in
  let r' := r mod 60000000 in
  format_fields (r' =? 0) (a / 3600000000) (r / 60000000)
                (r' / 1000000) (r' mod 1000000).

(** What [get_staged_milestones] and [get_commits] compute from the directory. *)
Definition loaded {A} (f : json -> result A) (p : path) (d : option dir)
  : result (list A) :=
  match d with
  | Some d =>
      match file p d with
      | Some t =>
          let? data := json_loads t in
          let? items := Py.iter data in
          traverse f items
      | None => Ok []
      end
  | None => Ok []
  end.

(** What [get_config] computes from the directory. *)
Definition loaded_config (d : option dir) : result json :=
  match d with
  | Some d =>
      match config d with
      | Some t => json_loads t
      | None => Ok (JObj [])
      end
  | None => Ok (JObj [])
  end.

(** A sequence of [add_milestone] calls. *)
Fixpoint add_all (ms : list Milestone.t) : M unit :=
  match ms with
  | [] => ret tt
  | m :: ms' => Repository.add_milestone m ;; add_all ms'
  end.

(** Following a dotted path through nested mappings. *)
Fixpoint lookup_path (ks : list string) (x : json) : option json :=
  match ks with
  | [] => Some x
  | k :: ks' =>
      match x with
      | JObj d =>
          match assoc k d with
          | Some v => lookup_path ks' v
          | None => None
          end
      | _ => None
      end
  end.

(** Every segment of [ks] that is present below [x] is a mapping, and so is
    the value the last of them leads to. *)
Fixpoint walkable (ks : list string) (x : json) : bool :=
  match x with
  | JObj d =>
      match ks with
      | [] => true
      | k :: ks' =>
          match assoc k d with
          | Some v => walkable ks' v
          | None => true
          end
      end
  | _ => false
  end.

Fixpoint string_forall (p : ascii -> bool) (s : string) : bool :=
  match s with
  | EmptyString => true
  | String c s' => p c && string_forall p s'
  end.

Definition is_lower_hex (c : ascii) : bool :=
  let n := nat_of_ascii c in
  ((48 <=? n) && (n <=? 57) || (97 <=? n) && (n <=? 102))%nat.

(** The effects [out] are console prints, none of them a ["Pushing..."] line. *)
Definition only_prints (out : list event) : Prop :=
  forallb Cli.is_print out = true.

Definition no_pushing (out : list event) : Prop :=
  forall line, In (Printed line) out -> is_prefix "[yellow]Pushing" line = false.

(** The commit as [add_commit] leaves it. *)
Definition hashed (c : Commit.t) : Commit.t :=
  Commit.mk (Commit.message c) (Commit.milestones c) (Commit.timestamp c)
            (Some (Repository.hash_of c)).

(** ** Sample values *)

Definition noon : datetime := mk_datetime 2024 1 1 12 0 0 0 None.
Definition later : datetime := mk_datetime 2024 2 29 23 59 58 250000 (Some 19800000000).

Definition wrote_docs : Milestone.t := Milestone.mk "wrote docs" noon ["docs"; "writing"].
Definition ran_tests : Milestone.t := Milestone.mk "ran tests" later [].

Definition day_one : Commit.t := Commit.mk "day 1" [wrote_docs; ran_tests] noon None.
Definition day_one_bare : Commit.t := Commit.mk "day 1" [ran_tests] noon None.
Definition day_17308 : Commit.t := Commit.mk "day 17308" [wrote_docs] noon None.
Definition day_19286 : Commit.t := Commit.mk "day 19286" [wrote_docs] noon None.

(** A root without [.gyt]; the same after [init]; after [init] and one
    [add_milestone]. *)
Definition fresh : world := mk_world None [].
Definition initialized : world := snd (Repository.init fresh).
Definition one_staged : world := snd (Repository.add_milestone wrote_docs initialized).

(** A repository whose three documents were overwritten with text that is
    no JSON; one whose staging document lacks the optional fields. *)
Definition garbled : world :=
  mk_world (Some (mk_dir (Some Garbled) (Some Garbled) (Some Garbled))) [].

Definition bare_record : json :=
  JObj [ ("message", JStr "by hand"); ("timestamp", JStr "2024-01-01 12:00") ].

Definition hand_edited : world :=
  mk_world (Some (mk_dir (Some (Document (JArr [bare_record])))
                         (Some empty_array)
                         (Some (Document Repository.default_config)))) [].

(** A repository with a history of two commits. *)
Definition two_commits : world :=
  snd (Repository.add_commit day_17308
         (snd (Repository.add_commit day_one initialized))).

(** ** Sessions: commands run one after the other *)

(** What the libraries render: a [rich] panel, [strftime] with the format of
    [log], [str] of a value that is no string, [json.dumps] with indent 2. *)
Record renderer : Type := mk_renderer {
  r_panel : string -> string;
  r_strftime : datetime -> string;
  r_repr : json -> string;
  r_dumps : json -> string
}.

(** The commands with their arguments; [now] is the clock when the command
    builds its record. *)
Inductive command : Type :=
| CmdInit
| CmdAdd (message : option string) (all : bool) (now : datetime)
| CmdCommit (message : string) (now : datetime)
| CmdStatus
| CmdLog (limit : Z)
| CmdConfig (key value : option string)
| CmdPush (remote : option string).

Definition run (R : renderer) (c : command) : M unit :=
  match c with
  | CmdInit => Cli.init
  | CmdAdd message all now => Cli.add message all now
  | CmdCommit message now => Cli.commit message now
  | CmdStatus => Cli.status (r_panel R)
  | CmdLog limit => Cli.log (r_strftime R) limit
  | CmdConfig key value => Cli.config (r_repr R) (r_dumps R) key value
  | CmdPush remote => Cli.push remote
  end.

(** The clock gives a datetime. *)
Definition clock_ok (c : command) : bool :=
  match c with
  | CmdAdd _ _ now | CmdCommit _ now => valid_datetime now
  | _ => true
  end.

(** Each command is a process of its own: the next one starts from the
    world the previous one left, whatever its exit status. *)
Definition session (R : renderer) (cs : list command) (w : world) : world :=
  fold_left (fun w c => snd (run R c w)) cs w.

(** [truthy] for an optional argument of the command line. *)
Definition given (s : option string) : bool :=
  match s with Some (String _ _) => true | _ => false end.

(** The commands that only read. *)
Definition read_only (c : command) : bool :=
  match c with
  | CmdStatus | CmdLog _ | CmdPush _ => true
  | CmdConfig key value => negb (given key && given value)
  | _ => false
  end.

(** [m] leaves the directory as it is and only prints. *)
Definition quiet {A} (m : M A) : Prop :=
  forall w, exists out,
    snd (m w) = mk_world (gyt_dir w) (trace w ++ out) /\ only_prints out.

(** A commit as the [commit] command makes it. *)
Definition made (c : Commit.t) : Prop :=
  Commit.milestones c <> [] /\
  Commit.commit_hash c = Some (Repository.hash_of c).

(** What a command can do to the directory. *)
Inductive dir_step : option dir -> option dir -> Prop :=
| step_same d : dir_step d d
| step_init :
    dir_step None
      (Some (mk_dir (Some empty_array) (Some empty_array)
                    (Some (json_dumps Repository.default_config))))
| step_add d cur m :
    loaded Milestone.from_dict staging_file (Some d) = Ok cur ->
    Milestone.valid m = true ->
    Milestone.tags m = [] ->
    dir_step (Some d)
      (Some (store staging_file
               (json_dumps (JArr (map Milestone.to_dict (cur ++ [m])))) d))
| step_commit d m ms cs message now :
    loaded Milestone.from_dict staging_file (Some d) = Ok (m :: ms) ->
    loaded Commit.from_dict commits_file (Some d) = Ok cs ->
    valid_datetime now = true ->
    dir_step (Some d)
      (Some (store staging_file empty_array
               (store commits_file
                  (json_dumps
                     (JArr (map Commit.to_dict
                              (cs ++ [hashed (Commit.mk message (m :: ms) now None)]))))
                  d)))
| step_config d cfg entries :
    loaded_config (Some d) = Ok cfg ->
    dir_step (Some d) (Some (store config_file (json_dumps (JObj entries)) d)).

(** Two dotted paths part ways: after a common start, different segments. *)
Definition diverge (p q : list string) : Prop :=
  exists common a b p' q',
    a <> b /\ p = (common ++ a :: p')%list /\ q = (common ++ b :: q')%list.

(** Renderers that show nothing of their own, and a session on a new root:
    the second [commit] finds nothing staged, the last [config] goes through
    a string. *)
Definition plain : renderer :=
  mk_renderer (fun s => s) isoformat (fun _ => "") (fun _ => "").

Definition sample_session : list command :=
  [ CmdAdd (Some "too early") false noon;
    CmdInit;
    CmdAdd (Some "wrote docs") false noon;
    CmdAdd None true later;
    CmdStatus;
    CmdCommit "day 1" later;
    CmdCommit "day 2" later;
    CmdConfig (Some "user.name") (Some "Ada");
    CmdConfig (Some "user.name.first") (Some "Ada");
    CmdLog 0;
    CmdPush None ].

(** * Properties *)

(** ** Strings *)

Lemma append_assoc (a b c : string) : (a ++ b) ++ c = a ++ (b ++ c).
Proof. induction a as [|x a IH]; simpl; [reflexivity | now rewrite IH]. Qed.

Lemma append_empty_r (a : string) : a ++ "" = a.
Proof. induction a as [|x a IH]; simpl; [reflexivity | now rewrite IH]. Qed.

Lemma length_append (a b : string) :
  String.length (a ++ b) = (String.length a + String.length b)%nat.
Proof. induction a as [|x a IH]; simpl; [reflexivity | now rewrite IH]. Qed.

(** ** Decimal fields *)

Lemma digit_cases (d : Z) :
  0 <= d < 10 ->
  d = 0 \/ d = 1 \/ d = 2 \/ d = 3 \/ d = 4 \/ d = 5 \/ d = 6 \/ d = 7 \/ d = 8 \/ d = 9.
Proof. lia. Qed.

Ltac each_digit H :=
  apply digit_cases in H;
  repeat (destruct H as [H | H]); subst; reflexivity.

Lemma digit_val_digit (d : Z) : 0 <= d < 10 -> digit_val (digit d) = Some d.
Proof. intros H. each_digit H. Qed.

Lemma pow10_pos (w : nat) : 0 < 10 ^ Z.of_nat w.
Proof. apply Z.pow_pos_nonneg; lia. Qed.

Lemma pow10_succ (w : nat) : 10 ^ Z.of_nat (S w) = 10 * 10 ^ Z.of_nat w.
Proof. rewrite Nat2Z.inj_succ, Z.pow_succ_r; lia. Qed.

Lemma leading_digit (w : nat) (v : Z) :
  0 <= v < 10 ^ Z.of_nat (S w) -> 0 <= v / 10 ^ Z.of_nat w < 10.
Proof.
  intros H. rewrite pow10_succ in H. pose proof (pow10_pos w) as P. split.
  - apply Z.div_pos; lia.
  - apply Z.div_lt_upper_bound; lia.
Qed.

Lemma read_digits_zpad (w : nat) : forall (v acc : Z) (rest : string),
  0 <= v < 10 ^ Z.of_nat w ->
  read_digits w acc (zpad w v ++ rest) = Some (acc * 10 ^ Z.of_nat w + v, rest).
Proof.
  induction w as [|w IH]; intros v acc rest H.
  - simpl in *. f_equal. f_equal. lia.
  - cbn [zpad read_digits append].
    rewrite (digit_val_digit _ (leading_digit w v H)).
    pose proof (pow10_pos w) as P.
    rewrite IH by (apply Z.mod_pos_bound; exact P).
    f_equal. f_equal. rewrite pow10_succ.
    pose proof (Z.div_mod v (10 ^ Z.of_nat w)). lia.
Qed.

Lemma zpad6_split (v : Z) :
  zpad 6 v = zpad 3 (v / 1000) ++ zpad 3 (v mod 1000).
Proof.
  unfold zpad; cbn [append]. change (Z.of_nat 5) with 5. change (Z.of_nat 4) with 4.
  change (Z.of_nat 3) with 3. change (Z.of_nat 2) with 2. change (Z.of_nat 1) with 1.
  change (Z.of_nat 0) with 0.
  change (10 ^ 5) with 100000. change (10 ^ 4) with 10000. change (10 ^ 3) with 1000.
  change (10 ^ 2) with 100. change (10 ^ 1) with 10. change (10 ^ 0) with 1.
  repeat (f_equal; try (Z.div_mod_to_equations; lia)).
Qed.

Lemma zpad_length (w : nat) (v : Z) : String.length (zpad w v) = w.
Proof. revert v. induction w as [|w IH]; intros v; simpl; [reflexivity | now rewrite IH]. Qed.

(** ** [find] over a formatted time *)

Lemma find_char_app (c : ascii) (a b : string) :
  find_char c a = None ->
  find_char c (a ++ b) =
  match find_char c b with
  | Some (x, y) => Some (a ++ x, y)
  | None => None
  end.
Proof.
  induction a as [|x a IH]; simpl; intros H.
  - destruct (find_char c b) as [[? ?]|]; reflexivity.
  - destruct (Ascii.eqb c x); [discriminate|].
    destruct (find_char c a) as [[? ?]|] eqn:E; [discriminate|].
    rewrite IH by reflexivity.
    destruct (find_char c b) as [[? ?]|]; reflexivity.
Qed.

Lemma find_char_app_none (c : ascii) (a b : string) :
  find_char c a = None -> find_char c b = None -> find_char c (a ++ b) = None.
Proof. intros Ha Hb. rewrite find_char_app, Hb by exact Ha. reflexivity. Qed.

Lemma digit_not_sign (d : Z) :
  0 <= d < 10 -> Ascii.eqb "-" (digit d) = false /\ Ascii.eqb "+" (digit d) = false.
Proof.
  intros H. apply digit_cases in H.
  repeat (destruct H as [H | H]); subst; split; reflexivity.
Qed.

Lemma find_sign_zpad (w : nat) : forall v,
  0 <= v < 10 ^ Z.of_nat w ->
  find_char "-" (zpad w v) = None /\ find_char "+" (zpad w v) = None.
Proof.
  induction w as [|w IH]; intros v H; [split; reflexivity|].
  destruct (digit_not_sign _ (leading_digit w v H)) as [Em Ep].
  destruct (IH (v mod 10 ^ Z.of_nat w)) as [Im Ip].
  { apply Z.mod_pos_bound, pow10_pos. }
  cbn [zpad find_char]. rewrite Em, Ep, Im, Ip. split; reflexivity.
Qed.

Lemma find_sign_format_time (hh mm ss us : Z) :
  0 <= hh < 100 -> 0 <= mm < 100 -> 0 <= ss < 100 -> 0 <= us < 1000000 ->
  find_char "-" (format_time hh mm ss us) = None /\
  find_char "+" (format_time hh mm ss us) = None.
Proof.
  intros Hh Hm Hs Hu. unfold format_time.
  destruct (find_sign_zpad 2 hh Hh) as [? ?].
  destruct (find_sign_zpad 2 mm Hm) as [? ?].
  destruct (find_sign_zpad 2 ss Hs) as [? ?].
  destruct (find_sign_zpad 6 us Hu) as [? ?].
  split; destruct (us =? 0);
    repeat (apply find_char_app_none; try assumption; try reflexivity).
Qed.

(** ** Time and offset fields read back *)

Lemma parse_fraction_zpad (us : Z) :
  0 <= us < 1000000 -> parse_fraction (zpad 6 us) = Some us.
Proof.
  intros H. unfold parse_fraction. rewrite zpad6_split.
  assert (H1 : 0 <= us / 1000 < 10 ^ Z.of_nat 3).
  { change (10 ^ Z.of_nat 3) with 1000. Z.div_mod_to_equations; lia. }
  assert (H2 : 0 <= us mod 1000 < 10 ^ Z.of_nat 3).
  { change (10 ^ Z.of_nat 3) with 1000. Z.div_mod_to_equations; lia. }
  rewrite (read_digits_zpad 3 _ 0 _ H1).
  destruct (zpad 3 (us mod 1000)) as [|c r] eqn:E.
  { apply (f_equal String.length) in E. rewrite zpad_length in E. discriminate. }
  rewrite <- E, <- (append_empty_r (zpad 3 (us mod 1000))).
  rewrite (read_digits_zpad 3 _ _ "" H2).
  change (10 ^ Z.of_nat 3) with 1000. f_equal. Z.div_mod_to_equations; lia.
Qed.

Lemma read_two (v : Z) (rest : string) :
  0 <= v < 100 -> read_digits 2 0 (zpad 2 v ++ rest) = Some (v, rest).
Proof. intros H. rewrite (read_digits_zpad 2 v 0 rest H). reflexivity. Qed.

Lemma read_two_end (v : Z) :
  0 <= v < 100 -> read_digits 2 0 (zpad 2 v) = Some (v, "").
Proof. intros H. rewrite <- (append_empty_r (zpad 2 v)). now apply read_two. Qed.

Lemma parse_format_fields (short : bool) (hh mm ss us : Z) :
  0 <= hh < 100 -> 0 <= mm < 100 -> 0 <= ss < 100 -> 0 <= us < 1000000 ->
  (short = true -> ss = 0 /\ us = 0) ->
  parse_hh_mm_ss_ff (format_fields short hh mm ss us) = Some (hh, mm, ss, us).
Proof.
  intros Hh Hm Hs Hu Hshort. unfold format_fields, parse_hh_mm_ss_ff.
  rewrite (read_two hh _ Hh). cbn [append expect]. rewrite Ascii.eqb_refl.
  destruct short.
  - destruct (Hshort eq_refl) as [-> ->].
    rewrite (read_two mm "" Hm). reflexivity.
  - rewrite (read_two mm _ Hm). cbn [append expect]. rewrite Ascii.eqb_refl.
    destruct (us =? 0) eqn:E.
    + apply Z.eqb_eq in E. subst us. rewrite (read_two ss "" Hs). reflexivity.
    + rewrite (read_two ss _ Hs). cbn [append expect]. rewrite Ascii.eqb_refl.
      rewrite (parse_fraction_zpad us Hu). reflexivity.
Qed.

Lemma find_sign_format_fields (short : bool) (hh mm ss us : Z) :
  0 <= hh < 100 -> 0 <= mm < 100 -> 0 <= ss < 100 -> 0 <= us < 1000000 ->
  find_char "-" (format_fields short hh mm ss us) = None /\
  find_char "+" (format_fields short hh mm ss us) = None.
Proof.
  intros Hh Hm Hs Hu. unfold format_fields.
  destruct (find_sign_zpad 2 hh Hh) as [? ?].
  destruct (find_sign_zpad 2 mm Hm) as [? ?].
  destruct (find_sign_zpad 2 ss Hs) as [? ?].
  destruct (find_sign_zpad 6 us Hu) as [? ?].
  split; destruct short; destruct (us =? 0);
    repeat (apply find_char_app_none; try assumption; try reflexivity).
Qed.

Lemma format_fields_length (short : bool) (hh mm ss us : Z) :
  let n := String.length (format_fields short hh mm ss us) in
  n = 5%nat \/ n = 8%nat \/ n = 15%nat.
Proof.
  unfold format_fields. destruct short; destruct (us =? 0);
    repeat (rewrite length_append || rewrite zpad_length); simpl; auto.
Qed.

Lemma format_time_fields (hh mm ss us : Z) :
  format_time hh mm ss us = format_fields false hh mm ss us.
Proof. reflexivity. Qed.

Lemma format_fields_cons (short : bool) (hh mm ss us : Z) (rest : string) :
  exists c r, format_fields short hh mm ss us ++ rest = String c r.
Proof. unfold format_fields. cbn [zpad append]. eauto. Qed.

(** The fields of a valid offset. *)
Lemma offset_fields (a : Z) :
  0 <= a < day_us ->
  let r := a mod 3600000000 in
  let r' := r mod 60000000 in
  0 <= a / 3600000000 < 100 /\ 0 <= r / 60000000 < 100 /\
  0 <= r' / 1000000 < 100 /\ 0 <= r' mod 1000000 < 1000000 /\
  (((a / 3600000000 * 60 + r / 60000000) * 60 + r' / 1000000) * 1000000
   + r' mod 1000000 = a) /\
  (r' = 0 -> r' / 1000000 = 0 /\ r' mod 1000000 = 0).
Proof.
  unfold day_us. intros H. cbv zeta.
  repeat split; try (Z.div_mod_to_equations; lia);
    intros ->; reflexivity.
Qed.

Lemma format_offset_eq (o : Z) :
  format_offset (Some o) = (if o <? 0 then "-" else "+") ++ offset_text o.
Proof. reflexivity. Qed.

Lemma find_sign_offset_text (o : Z) :
  - day_us < o < day_us ->
  find_char "-" (offset_text o) = None /\ find_char "+" (offset_text o) = None.
Proof.
  intros Ho. unfold offset_text. cbv zeta.
  assert (Ha : 0 <= Z.abs o < day_us) by lia.
  destruct (offset_fields _ Ha) as (Hh & Hmm & Hs & Hu & _ & _).
  now apply find_sign_format_fields.
Qed.

Lemma split_format_offset (o : Z) :
  - day_us < o < day_us ->
  forall t, find_char "-" t = None -> find_char "+" t = None ->
  split_offset (t ++ format_offset (Some o)) =
    (t, Some (if o <? 0 then -1 else 1, offset_text o)).
Proof.
  intros Ho t Hm Hp. destruct (find_sign_offset_text o Ho) as [Fm Fp].
  unfold split_offset. rewrite format_offset_eq.
  rewrite (find_char_app _ _ _ Hm).
  destruct (o <? 0); cbn [append find_char].
  - rewrite Ascii.eqb_refl, append_empty_r. reflexivity.
  - change (Ascii.eqb "-" "+") with false. cbv iota. rewrite Fm.
    rewrite (find_char_app _ _ _ Hp). cbn [append find_char].
    rewrite Ascii.eqb_refl, append_empty_r. reflexivity.
Qed.

Lemma parse_offset_text (o : Z) :
  - day_us < o < day_us ->
  parse_offset (if o <? 0 then -1 else 1) (offset_text o) = Some o.
Proof.
  intros Ho. unfold parse_offset, offset_text. cbv zeta.
  assert (Ha : 0 <= Z.abs o < day_us) by lia.
  destruct (offset_fields _ Ha) as (Hh & Hmm & Hs & Hu & Hsum & Hz).
  match goal with |- context [String.length ?s] =>
    destruct (format_fields_length (Z.abs o mod 3600000000 mod 60000000 =? 0)
                (Z.abs o / 3600000000) (Z.abs o mod 3600000000 / 60000000)
                (Z.abs o mod 3600000000 mod 60000000 / 1000000)
                (Z.abs o mod 3600000000 mod 60000000 mod 1000000)) as [E | [E | E]];
    cbv zeta in E; rewrite E; cbn [Nat.eqb orb]
  end;
  (rewrite parse_format_fields;
   [ f_equal; rewrite Hsum; destruct (Z.ltb_spec o 0); lia
   | assumption | assumption | assumption | assumption
   | intros Z0; apply Z.eqb_eq in Z0; exact (Hz Z0) ]).
Qed.

Lemma find_sign_nothing (t : string) :
  find_char "-" t = None -> find_char "+" t = None ->
  split_offset (t ++ format_offset None) = (t, None).
Proof.
  intros Hm Hp. unfold split_offset, format_offset.
  rewrite append_empty_r, Hm, Hp. reflexivity.
Qed.

(** ** [fromisoformat] inverts [isoformat] *)

Lemma in_range_spec (lo v hi : Z) : in_range lo v hi = true <-> lo <= v <= hi.
Proof. unfold in_range. rewrite andb_true_iff, !Z.leb_le. tauto. Qed.

Lemma days_in_month_bound (y m : Z) : days_in_month y m <= 31.
Proof.
  unfold days_in_month.
  destruct (m =? 2); [destruct (is_leap y); lia|].
  destruct ((m =? 4) || (m =? 6) || (m =? 9) || (m =? 11)); lia.
Qed.

Lemma valid_datetime_fields (d : datetime) :
  valid_datetime d = true ->
  0 <= year d < 10000 /\ 0 <= month d < 100 /\ 0 <= day d < 100 /\
  0 <= hour d < 100 /\ 0 <= minute d < 100 /\ 0 <= second d < 100 /\
  0 <= microsecond d < 1000000 /\
  match tzinfo d with Some o => - day_us < o < day_us | None => True end.
Proof.
  unfold valid_datetime. rewrite !andb_true_iff, !in_range_spec.
  intros [[[[[[[Hy Hm] Hd] Hh] Hmi] Hs] Hu] Hz].
  pose proof (days_in_month_bound (year d) (month d)).
  repeat split; try lia.
  destruct (tzinfo d); [|exact I].
  apply andb_true_iff in Hz. rewrite !Z.ltb_lt in Hz. lia.
Qed.

Lemma parse_isoformat_time_format (hh mm ss us : Z) (tz : option Z) :
  0 <= hh < 100 -> 0 <= mm < 100 -> 0 <= ss < 100 -> 0 <= us < 1000000 ->
  match tz with Some o => - day_us < o < day_us | None => True end ->
  parse_isoformat_time (format_time hh mm ss us ++ format_offset tz) =
  Some (hh, mm, ss, us, tz).
Proof.
  intros Hh Hm Hs Hu Hz. rewrite format_time_fields.
  destruct (find_sign_format_fields false hh mm ss us Hh Hm Hs Hu) as [Fm Fp].
  assert (P : parse_hh_mm_ss_ff (format_fields false hh mm ss us) = Some (hh, mm, ss, us)).
  { apply parse_format_fields; try assumption; discriminate. }
  unfold parse_isoformat_time.
  destruct (format_fields_cons false hh mm ss us (format_offset tz)) as (c & r & E).
  rewrite E, <- E. clear E.
  destruct tz as [o|].
  - rewrite (split_format_offset o Hz _ Fm Fp), P, (parse_offset_text o Hz). reflexivity.
  - rewrite (find_sign_nothing _ Fm Fp), P. reflexivity.
Qed.

Lemma fromisoformat_isoformat (d : datetime) :
  valid_datetime d = true -> fromisoformat (isoformat d) = Ok d.
Proof.
  intros V.
  destruct (valid_datetime_fields d V) as (Hy & Hm & Hd & Hh & Hmi & Hs & Hu & Hz).
  unfold fromisoformat, isoformat, parse_isoformat_date.
  rewrite (read_digits_zpad 4 (year d) 0 _ Hy). cbn [append expect].
  rewrite Ascii.eqb_refl, (read_two _ _ Hm). cbn [append expect].
  rewrite Ascii.eqb_refl, (read_two _ _ Hd). cbn [append].
  rewrite (parse_isoformat_time_format _ _ _ _ _ Hh Hmi Hs Hu Hz).
  replace (0 * 10 ^ Z.of_nat 4 + year d) with (year d) by lia.
  destruct d; cbn [year month day hour
                   minute second microsecond
                   tzinfo] in *.
  rewrite V. reflexivity.
Qed.

Lemma fromisoformat_valid (s : string) (d : datetime) :
  fromisoformat s = Ok d -> valid_datetime d = true.
Proof.
  unfold fromisoformat.
  destruct (parse_isoformat_date s) as [[[[y m] dd] rest]|]; [|discriminate].
  destruct (parse_isoformat_time _) as [[[[[hh mm] ss] us] tz]|]; [|discriminate].
  destruct (valid_datetime _) eqn:V; [|discriminate].
  intros E. injection E as <-. exact V.
Qed.

(** ** Lists of results *)

Lemma traverse_map_inv {A B} (f : A -> result B) (g : B -> A) (ys : list B) :
  (forall y, In y ys -> f (g y) = Ok y) ->
  traverse f (map g ys) = Ok ys.
Proof.
  induction ys as [|y ys IH]; intros H; simpl; [reflexivity|].
  rewrite (H y (or_introl eq_refl)). simpl.
  rewrite IH by (intros z Hz; apply H; right; exact Hz). reflexivity.
Qed.

Lemma traverse_ok_forall {A B} (f : A -> result B) (P : B -> Prop) :
  (forall x y, f x = Ok y -> P y) ->
  forall xs ys, traverse f xs = Ok ys -> Forall P ys.
Proof.
  intros H xs. induction xs as [|x xs IH]; simpl; intros ys E.
  - injection E as <-. constructor.
  - destruct (f x) as [y|e] eqn:Fx; [|discriminate]. simpl in E.
    destruct (traverse f xs) as [ys'|e]; [|discriminate]. simpl in E.
    injection E as <-. constructor; [eapply H; eassumption | now apply IH].
Qed.

Lemma as_str_list_map (l : list string) : Py.as_str_list (JArr (map JStr l)) = Ok l.
Proof. apply traverse_map_inv. reflexivity. Qed.

(** ** Records and their dicts *)

#[local] Arguments isoformat : simpl never.
#[local] Arguments fromisoformat : simpl never.

Lemma milestone_roundtrip (m : Milestone.t) :
  Milestone.valid m = true -> Milestone.from_dict (Milestone.to_dict m) = Ok m.
Proof.
  intros V. unfold Milestone.valid in V. destruct m as [msg ts tg].
  unfold Milestone.from_dict, Milestone.to_dict. cbn in *.
  rewrite (fromisoformat_isoformat ts V). cbn.
  fold (Py.as_str_list (JArr (map JStr tg))).
  rewrite as_str_list_map. reflexivity.
Qed.

Lemma milestone_from_dict_valid (data : json) (m : Milestone.t) :
  Milestone.from_dict data = Ok m -> Milestone.valid m = true.
Proof.
  unfold Milestone.from_dict, Milestone.valid.
  destruct (Py.getitem data "message") as [a|]; [|discriminate]. cbn [rbind].
  destruct (Py.getitem data "timestamp") as [b|]; [|discriminate]. cbn [rbind].
  destruct (Py.fromisoformat b) as [ts|] eqn:Ets; [|discriminate]. cbn [rbind].
  destruct (Py.get data "tags" (JArr [])) as [c|]; [|discriminate]. cbn [rbind].
  destruct (Py.as_str a) as [a'|]; [|discriminate]. cbn [rbind].
  destruct (Py.as_str_list c) as [c'|]; [|discriminate]. cbn [rbind].
  intros E. injection E as <-. cbn.
  destruct b; try discriminate. exact (fromisoformat_valid _ _ Ets).
Qed.

Lemma milestones_roundtrip (ms : list Milestone.t) :
  forallb Milestone.valid ms = true ->
  traverse Milestone.from_dict (map Milestone.to_dict ms) = Ok ms.
Proof.
  intros V. apply traverse_map_inv. intros m Hm.
  apply milestone_roundtrip. rewrite forallb_forall in V. now apply V.
Qed.

Lemma milestones_from_dict_valid (items : list json) (ms : list Milestone.t) :
  traverse Milestone.from_dict items = Ok ms -> forallb Milestone.valid ms = true.
Proof.
  intros E. apply forallb_forall. apply Forall_forall.
  revert E. apply traverse_ok_forall. exact milestone_from_dict_valid.
Qed.

Lemma commit_roundtrip (c : Commit.t) :
  Commit.valid c = true -> Commit.from_dict (Commit.to_dict c) = Ok c.
Proof.
  unfold Commit.valid. rewrite andb_true_iff. intros [Vt Vm].
  destruct c as [msg ms ts h].
  unfold Commit.from_dict, Commit.to_dict. cbn in *.
  fold (traverse Milestone.from_dict (map Milestone.to_dict ms)).
  rewrite (milestones_roundtrip ms Vm). cbn.
  rewrite (fromisoformat_isoformat ts Vt). cbn.
  destruct h; reflexivity.
Qed.

Lemma commit_from_dict_valid (data : json) (c : Commit.t) :
  Commit.from_dict data = Ok c -> Commit.valid c = true.
Proof.
  unfold Commit.from_dict, Commit.valid.
  destruct (Py.getitem data "message") as [a|]; [|discriminate]. cbn [rbind].
  destruct (Py.getitem data "milestones") as [b|]; [|discriminate]. cbn [rbind].
  destruct (Py.iter b) as [items|]; [|discriminate]. cbn [rbind].
  destruct (traverse Milestone.from_dict items) as [ms|] eqn:Ems; [|discriminate].
  cbn [rbind].
  destruct (Py.getitem data "timestamp") as [t|]; [|discriminate]. cbn [rbind].
  destruct (Py.fromisoformat t) as [ts|] eqn:Ets; [|discriminate]. cbn [rbind].
  destruct (Py.get data "commit_hash" JNull) as [h|]; [|discriminate]. cbn [rbind].
  destruct (Py.as_str a) as [a'|]; [|discriminate]. cbn [rbind].
  destruct (Py.as_opt_str h) as [h'|]; [|discriminate]. cbn [rbind].
  intros E. injection E as <-. cbn.
  rewrite (milestones_from_dict_valid _ _ Ems), andb_true_r.
  destruct t; try discriminate. exact (fromisoformat_valid _ _ Ets).
Qed.

(** ** The repository operations as functions of the directory *)

Local Open Scope gyt_scope.

Lemma get_staged_milestones_eq (w : world) :
  Repository.get_staged_milestones w =
  (loaded Milestone.from_dict staging_file (gyt_dir w), w).
Proof.
  unfold Repository.get_staged_milestones, loaded, bind, file_exists, read_text, lift, ret.
  destruct w as [[[[[|doc]|] c g]|] tr]; cbn; try reflexivity.
  destruct (Py.iter doc) as [items|]; cbn; [|reflexivity].
  destruct (traverse Milestone.from_dict items); reflexivity.
Qed.

Lemma get_commits_eq (w : world) :
  Repository.get_commits w = (loaded Commit.from_dict commits_file (gyt_dir w), w).
Proof.
  unfold Repository.get_commits, loaded, bind, file_exists, read_text, lift, ret.
  destruct w as [[[s [[|doc]|] g]|] tr]; cbn; try reflexivity.
  destruct (Py.iter doc) as [items|]; cbn; [|reflexivity].
  destruct (traverse Commit.from_dict items); reflexivity.
Qed.

Lemma get_config_eq (w : world) :
  Repository.get_config w = (loaded_config (gyt_dir w), w).
Proof.
  unfold Repository.get_config, loaded_config, bind, file_exists, read_text, lift, ret.
  destruct w as [[[s c [[|doc]|]]|] tr]; reflexivity.
Qed.

Lemma loaded_valid_milestones (p : path) (d : option dir) (ms : list Milestone.t) :
  loaded Milestone.from_dict p d = Ok ms -> forallb Milestone.valid ms = true.
Proof.
  unfold loaded. destruct d as [d|]; [|intros E; injection E as <-; reflexivity].
  destruct (file p d) as [t|]; [|intros E; injection E as <-; reflexivity].
  destruct (json_loads t) as [data|]; [|discriminate]. cbn [rbind].
  destruct (Py.iter data) as [items|]; [|discriminate]. cbn [rbind].
  apply milestones_from_dict_valid.
Qed.

Lemma loaded_valid_commits (p : path) (d : option dir) (cs : list Commit.t) :
  loaded Commit.from_dict p d = Ok cs -> forallb Commit.valid cs = true.
Proof.
  unfold loaded. destruct d as [d|]; [|intros E; injection E as <-; reflexivity].
  destruct (file p d) as [t|]; [|intros E; injection E as <-; reflexivity].
  destruct (json_loads t) as [data|]; [|discriminate]. cbn [rbind].
  destruct (Py.iter data) as [items|]; [|discriminate]. cbn [rbind].
  intros E. apply forallb_forall, Forall_forall.
  revert E. apply traverse_ok_forall. exact commit_from_dict_valid.
Qed.

Lemma commits_roundtrip (cs : list Commit.t) :
  forallb Commit.valid cs = true ->
  traverse Commit.from_dict (map Commit.to_dict cs) = Ok cs.
Proof.
  intros V. apply traverse_map_inv. intros c Hc.
  apply commit_roundtrip. rewrite forallb_forall in V. now apply V.
Qed.

Lemma add_milestone_eq (w : world) (d : dir) (cur : list Milestone.t) (m : Milestone.t) :
  gyt_dir w = Some d ->
  loaded Milestone.from_dict staging_file (Some d) = Ok cur ->
  let t := Document (JArr (map Milestone.to_dict (cur ++ [m]))) in
  Repository.add_milestone m w =
  (Ok tt, mk_world (Some (store staging_file t d)) (trace w ++ [Wrote staging_file t])).
Proof.
  intros Hd Hl. unfold Repository.add_milestone, bind.
  rewrite get_staged_milestones_eq, Hd, Hl.
  unfold write_text, json_dumps. rewrite Hd. reflexivity.
Qed.

Lemma add_all_staged (ms : list Milestone.t) :
  forall (w : world) (d : dir) (cur : list Milestone.t),
  gyt_dir w = Some d ->
  loaded Milestone.from_dict staging_file (Some d) = Ok cur ->
  forallb Milestone.valid ms = true ->
  exists w' d',
    add_all ms w = (Ok tt, w') /\ gyt_dir w' = Some d' /\
    loaded Milestone.from_dict staging_file (Some d') = Ok (cur ++ ms)%list.
Proof.
  induction ms as [|m ms IH]; intros w d cur Hd Hl V.
  - exists w, d. rewrite app_nil_r. auto.
  - cbn [forallb] in V. apply andb_true_iff in V as [Vm Vms].
    cbn [add_all]. unfold bind at 1.
    rewrite (add_milestone_eq w d cur m Hd Hl).
    pose proof (loaded_valid_milestones _ _ _ Hl) as Vcur.
    set (t := Document (JArr (map Milestone.to_dict (cur ++ [m])))).
    destruct (IH (mk_world (Some (store staging_file t d)) (trace w ++ [Wrote staging_file t]))
                 (store staging_file t d) (cur ++ [m])%list eq_refl) as (w' & d' & E & Hd' & Hl').
    + cbn. fold (traverse Milestone.from_dict (map Milestone.to_dict (cur ++ [m]))).
      apply milestones_roundtrip. rewrite forallb_app, Vcur. cbn. now rewrite Vm.
    + exact Vms.
    + exists w', d'. rewrite <- app_assoc in Hl'. auto.
Qed.

Lemma is_initialized_dir (w : world) :
  fst (Repository.is_initialized w) = Ok true -> exists d, gyt_dir w = Some d.
Proof.
  unfold Repository.is_initialized, dir_exists. cbn.
  destruct (gyt_dir w) as [d|]; [eauto | discriminate].
Qed.

Lemma add_commit_eq (w : world) (d : dir) (cs : list Commit.t) (c : Commit.t) :
  gyt_dir w = Some d ->
  loaded Commit.from_dict commits_file (Some d) = Ok cs ->
  let t := Document (JArr (map Commit.to_dict (cs ++ [hashed c]))) in
  Repository.add_commit c w =
  (Ok (hashed c),
   mk_world (Some (store commits_file t d)) (trace w ++ [Wrote commits_file t])).
Proof.
  intros Hd Hl. unfold Repository.add_commit, bind.
  rewrite get_commits_eq, Hd, Hl.
  unfold write_text, json_dumps. rewrite Hd. reflexivity.
Qed.

Lemma add_commit_inv (w w' : world) (c c' : Commit.t) :
  Repository.add_commit c w = (Ok c', w') -> c' = hashed c.
Proof.
  unfold Repository.add_commit, bind. rewrite get_commits_eq.
  destruct (loaded Commit.from_dict commits_file (gyt_dir w)); [|discriminate].
  unfold write_text. destruct (gyt_dir w); [|discriminate].
  unfold ret. intros E. injection E as <- _. reflexivity.
Qed.

(** C9.  Serialization round trip: [from_dict] gives back the milestone, and
    the commit (with its nested milestones and its hash, assigned or not),
    that [to_dict] was applied to. *)
Theorem to_dict_from_dict (m : Milestone.t) (c : Commit.t) :
  Milestone.valid m = true ->
  Commit.valid c = true ->
  Milestone.from_dict (Milestone.to_dict m) = Ok m /\
  Commit.from_dict (Commit.to_dict c) = Ok c.
Proof.
  intros Vm Vc. split; [now apply milestone_roundtrip | now apply commit_roundtrip].
Qed.

(** C5.  Starting from an empty staging area in an initialized repository,
    after any sequence of [add_milestone] calls [get_staged_milestones]
    returns the milestones added, in the order of the calls. *)
Theorem staged_in_call_order (w : world) (ms : list Milestone.t) :
  fst (Repository.is_initialized w) = Ok true ->
  fst (Repository.get_staged_milestones w) = Ok [] ->
  forallb Milestone.valid ms = true ->
  exists w',
    add_all ms w = (Ok tt, w') /\
    fst (Repository.get_staged_milestones w') = Ok ms.
Proof.
  intros Hi Hs V. destruct (is_initialized_dir w Hi) as [d Hd].
  rewrite get_staged_milestones_eq, Hd in Hs. cbn [fst] in Hs.
  destruct (add_all_staged ms w d [] Hd Hs V) as (w' & d' & E & Hd' & Hl).
  exists w'. split; [exact E|].
  rewrite get_staged_milestones_eq, Hd'. exact Hl.
Qed.

(** C4.  [init] on a root without [.gyt] creates it, writes the empty staging
    and commits arrays and the default configuration (empty [user.name],
    [user.email] and [remote.url]) and returns true; on a root with [.gyt]
    it returns false and changes nothing. *)
Theorem init_fresh_or_existing :
  (forall tr,
     Repository.init (mk_world None tr) =
     (Ok true,
      mk_world
        (Some (mk_dir (Some empty_array) (Some empty_array)
                      (Some (json_dumps Repository.default_config))))
        (tr ++ [MadeDir; Wrote staging_file empty_array;
                Wrote commits_file empty_array;
                Wrote config_file (json_dumps Repository.default_config)]))) /\
  json_loads empty_array = Ok (JArr []) /\
  lookup_path ["user"; "name"] Repository.default_config = Some (JStr "") /\
  lookup_path ["user"; "email"] Repository.default_config = Some (JStr "") /\
  lookup_path ["remote"; "url"] Repository.default_config = Some (JStr "") /\
  (forall d tr,
     Repository.init (mk_world (Some d) tr) = (Ok false, mk_world (Some d) tr)).
Proof.
  repeat split.
  intros tr. unfold Repository.init, bind, dir_exists, mkdir, write_text, ret. cbn.
  repeat rewrite <- app_assoc. reflexivity.
Qed.

Lemma commit_empty_run (w : world) (message : string) (now : datetime) :
  loaded Milestone.from_dict staging_file (gyt_dir w) = Ok [] ->
  exists line,
    Cli.commit message now w =
    (Raise (Exit 1), mk_world (gyt_dir w) (trace w ++ [Printed line])).
Proof.
  intros Hs.
  unfold Cli.commit, Cli.ensure_repo, Repository.is_initialized, bind at 1 2.
  unfold dir_exists at 1. destruct w as [[d|] tr]; cbn [gyt_dir trace negb] in *.
  - unfold ret at 1. unfold bind at 1. rewrite get_staged_milestones_eq.
    cbn [gyt_dir]. rewrite Hs. eexists. reflexivity.
  - eexists. reflexivity.
Qed.

(** C6.  [commit] with nothing staged exits with code 1; the directory is as
    before and the only effects are console prints (no write). *)
Theorem commit_nothing_staged (w : world) (message : string) (now : datetime) :
  fst (Repository.get_staged_milestones w) = Ok [] ->
  exists out,
    Cli.commit message now w = (Raise (Exit 1), mk_world (gyt_dir w) (trace w ++ out)) /\
    Cli.exit_code (fst (Cli.commit message now w)) = 1 /\
    only_prints out /\
    (forall e, In e out -> Cli.is_write e = false).
Proof.
  intros Hs. rewrite get_staged_milestones_eq in Hs. cbn [fst] in Hs.
  destruct (commit_empty_run w message now Hs) as [line E].
  exists [Printed line]. rewrite E. repeat split.
  intros e [<- | []]. reflexivity.
Qed.

(** C7.  With a non-empty staging area, [commit] (that is [add_commit], then
    [clear_staging]) leaves the staging area empty and the history one entry
    longer; the new entry holds the milestones that were staged. *)
Theorem commit_moves_staged (w : world) (message : string) (now : datetime)
        (staged : list Milestone.t) (cs : list Commit.t) :
  fst (Repository.is_initialized w) = Ok true ->
  fst (Repository.get_staged_milestones w) = Ok staged ->
  staged <> [] ->
  fst (Repository.get_commits w) = Ok cs ->
  valid_datetime now = true ->
  exists w' c,
    Cli.commit message now w = (Ok tt, w') /\
    fst (Repository.get_staged_milestones w') = Ok [] /\
    fst (Repository.get_commits w') = Ok (cs ++ [c])%list /\
    List.length (cs ++ [c]) = S (List.length cs) /\
    Commit.milestones c = staged.
Proof.
  intros Hi Hs Hne Hc Vnow. destruct (is_initialized_dir w Hi) as [d Hd].
  rewrite get_staged_milestones_eq in Hs. rewrite get_commits_eq in Hc.
  cbn [fst] in Hs, Hc. rewrite Hd in Hs, Hc.
  pose proof (loaded_valid_milestones _ _ _ Hs) as Vs.
  pose proof (loaded_valid_commits _ _ _ Hc) as Vcs.
  destruct staged as [|m0 staged']; [contradiction|].
  set (staged := m0 :: staged') in *.
  set (c := hashed (Commit.mk message staged now None)).
  assert (Vc : Commit.valid c = true).
  { unfold Commit.valid, c, hashed.
    cbn [Commit.timestamp Commit.milestones]. now rewrite Vnow, Vs. }
  eexists. exists c.
  split; [|split; [|split; [|split]]].
  - unfold Cli.commit, Cli.ensure_repo, Repository.is_initialized, bind at 1 2.
    unfold dir_exists at 1. rewrite Hd. cbn [negb]. unfold ret at 1.
    unfold bind at 1. rewrite get_staged_milestones_eq, Hd, Hs.
    unfold staged at 1. cbv iota. unfold bind at 1.
    rewrite (add_commit_eq w d cs _ Hd Hc).
    unfold bind, Repository.clear_staging, write_text, print, emit. cbn.
    reflexivity.
  - rewrite get_staged_milestones_eq. reflexivity.
  - rewrite get_commits_eq. cbn.
    fold (traverse Commit.from_dict (map Commit.to_dict (cs ++ [c]))).
    apply commits_roundtrip. rewrite forallb_app, Vcs. cbn. now rewrite Vc.
  - rewrite length_app. cbn. lia.
  - reflexivity.
Qed.

(** ** The hexadecimal text of a digest *)

Lemma hex_length (n : nat) (x : Z) : String.length (Sha256.hex n x) = n.
Proof. induction n as [|n IH]; simpl; [reflexivity | now rewrite IH]. Qed.

Lemma hex_cases (d : Z) :
  0 <= d < 16 ->
  d = 0 \/ d = 1 \/ d = 2 \/ d = 3 \/ d = 4 \/ d = 5 \/ d = 6 \/ d = 7 \/
  d = 8 \/ d = 9 \/ d = 10 \/ d = 11 \/ d = 12 \/ d = 13 \/ d = 14 \/ d = 15.
Proof. lia. Qed.

Lemma hex_digit_lower (d : Z) :
  0 <= d < 16 -> is_lower_hex (Sha256.hex_digit d) = true.
Proof.
  intros H. apply hex_cases in H.
  repeat (destruct H as [H | H]); subst; reflexivity.
Qed.

Lemma hex_digit_inj (a b : Z) :
  0 <= a < 16 -> 0 <= b < 16 -> Sha256.hex_digit a = Sha256.hex_digit b -> a = b.
Proof.
  intros Ha Hb. apply hex_cases in Ha. apply hex_cases in Hb.
  repeat (destruct Ha as [Ha | Ha]); subst;
    repeat (destruct Hb as [Hb | Hb]); subst;
    intros E; try reflexivity; discriminate E.
Qed.

Lemma pow16_pos (n : nat) : 0 < 16 ^ Z.of_nat n.
Proof. apply Z.pow_pos_nonneg; lia. Qed.

Lemma hex_lower (n : nat) (x : Z) : string_forall is_lower_hex (Sha256.hex n x) = true.
Proof.
  induction n as [|n IH]; simpl; [reflexivity|].
  rewrite IH, andb_true_r. apply hex_digit_lower.
  apply Z.mod_pos_bound. lia.
Qed.

Lemma hex_inj (n : nat) (x y : Z) :
  Sha256.hex n x = Sha256.hex n y -> x mod 16 ^ Z.of_nat n = y mod 16 ^ Z.of_nat n.
Proof.
  induction n as [|n IH]; intros E.
  - simpl. now rewrite !Z.mod_1_r.
  - cbn [Sha256.hex] in E. injection E as Ed Er.
    apply hex_digit_inj in Ed; try (apply Z.mod_pos_bound; lia).
    specialize (IH Er). pose proof (pow16_pos n) as P.
    rewrite Nat2Z.inj_succ, Z.pow_succ_r by lia.
    rewrite (Z.mul_comm 16), !Z.rem_mul_r by lia.
    now rewrite IH, Ed.
Qed.

Lemma prefix_append (a b : string) : prefix (String.length a) (a ++ b) = a.
Proof. induction a as [|c a IH]; simpl; [now destruct b | now rewrite IH]. Qed.

Lemma hexdigest_prefix (msg : list Z) :
  prefix 8 (Sha256.hexdigest msg) = Sha256.hex 8 (Sha256.ha (Sha256.digest msg)).
Proof.
  unfold Sha256.hexdigest. cbv zeta.
  rewrite <- (hex_length 8 (Sha256.ha (Sha256.digest msg))) at 1.
  apply prefix_append.
Qed.

Lemma hash_of_eq (c : Commit.t) :
  Repository.hash_of c =
  Sha256.hex 8 (Sha256.ha (Sha256.digest (encode (Repository.hash_input c)))).
Proof. apply hexdigest_prefix. Qed.

(** The first word of a digest is a 32-bit word. *)
Lemma wrap_range (x : Z) : 0 <= Sha256.wrap x < 2 ^ 32.
Proof. unfold Sha256.wrap. apply Z.mod_pos_bound. lia. Qed.

Lemma fold_compress_range (bs : list (list Z)) : forall s,
  0 <= Sha256.ha s < 2 ^ 32 ->
  0 <= Sha256.ha (fold_left Sha256.compress bs s) < 2 ^ 32.
Proof.
  induction bs as [|b bs IH]; intros s H; [exact H|].
  cbn [fold_left]. apply IH. unfold Sha256.compress. cbn [Sha256.ha].
  apply wrap_range.
Qed.

Lemma digest_range (msg : list Z) : 0 <= Sha256.ha (Sha256.digest msg) < 2 ^ 32.
Proof. unfold Sha256.digest. cbv zeta. apply fold_compress_range. cbn. lia. Qed.

Lemma hash_of_inj (c1 c2 : Commit.t) :
  Repository.hash_of c1 = Repository.hash_of c2 <->
  Sha256.ha (Sha256.digest (encode (Repository.hash_input c1))) =
  Sha256.ha (Sha256.digest (encode (Repository.hash_input c2))).
Proof.
  rewrite !hash_of_eq. split; [|now intros ->].
  intros E. apply hex_inj in E.
  pose proof (digest_range (encode (Repository.hash_input c1))) as R1.
  pose proof (digest_range (encode (Repository.hash_input c2))) as R2.
  change (16 ^ Z.of_nat 8) with 4294967296 in E. change (2 ^ 32) with 4294967296 in R1, R2.
  rewrite (Z.mod_small _ _ R1), (Z.mod_small _ _ R2) in E. exact E.
Qed.

(** C1.  In an initialized repository whose history can be read,
    [add_commit] assigns as [commit_hash] the first 8 characters of the
    hexadecimal SHA-256 digest of the bytes of the ISO text of the timestamp
    followed by the message; these are 8 lowercase hexadecimal characters. *)
Theorem add_commit_hash (w : world) (c : Commit.t) (cs : list Commit.t) :
  fst (Repository.is_initialized w) = Ok true ->
  fst (Repository.get_commits w) = Ok cs ->
  exists w' c' h,
    Repository.add_commit c w = (Ok c', w') /\
    Commit.commit_hash c' = Some h /\
    h = prefix 8 (Sha256.hexdigest
                    (encode (isoformat (Commit.timestamp c) ++ Commit.message c))) /\
    String.length h = 8%nat /\
    string_forall is_lower_hex h = true.
Proof.
  intros Hi Hc. destruct (is_initialized_dir w Hi) as [d Hd].
  rewrite get_commits_eq, Hd in Hc. cbn [fst] in Hc.
  eexists. exists (hashed c), (Repository.hash_of c).
  split; [exact (add_commit_eq w d cs c Hd Hc)|].
  split; [reflexivity|]. split; [reflexivity|].
  rewrite hash_of_eq. split; [apply hex_length | apply hex_lower].
Qed.

(** C10.  The hash does not depend on the milestones: two commits with the
    same timestamp and the same message are given the same [commit_hash],
    whatever their milestones and whatever the repositories. *)
Theorem hash_ignores_milestones (w1 w2 w1' w2' : world) (c1 c2 c1' c2' : Commit.t) :
  Commit.timestamp c1 = Commit.timestamp c2 ->
  Commit.message c1 = Commit.message c2 ->
  Repository.add_commit c1 w1 = (Ok c1', w1') ->
  Repository.add_commit c2 w2 = (Ok c2', w2') ->
  Commit.commit_hash c1' = Commit.commit_hash c2'.
Proof.
  intros Et Em E1 E2.
  apply add_commit_inv in E1. apply add_commit_inv in E2. subst c1' c2'.
  unfold hashed, Repository.hash_of, Repository.hash_input. cbn [Commit.commit_hash].
  now rewrite Et, Em.
Qed.

(** C3, as the code has it.  The hashes given to two commits differ exactly
    when the first 32 bits of the SHA-256 digests of their hash inputs (ISO
    text of the timestamp, then the message) differ; nothing else keeps two
    commits with different timestamps or messages apart. *)
Theorem hashes_differ_iff (w1 w2 w1' w2' : world) (c1 c2 c1' c2' : Commit.t) :
  Repository.add_commit c1 w1 = (Ok c1', w1') ->
  Repository.add_commit c2 w2 = (Ok c2', w2') ->
  (Commit.commit_hash c1' <> Commit.commit_hash c2' <->
   Sha256.ha (Sha256.digest (encode (Repository.hash_input c1))) <>
   Sha256.ha (Sha256.digest (encode (Repository.hash_input c2)))) /\
  (Commit.commit_hash c1' <> Commit.commit_hash c2' ->
   (Commit.timestamp c1, Commit.message c1) <> (Commit.timestamp c2, Commit.message c2)).
Proof.
  intros E1 E2.
  apply add_commit_inv in E1. apply add_commit_inv in E2. subst c1' c2'.
  unfold hashed. cbn [Commit.commit_hash].
  assert (I : Some (Repository.hash_of c1) = Some (Repository.hash_of c2) <->
              Repository.hash_of c1 = Repository.hash_of c2).
  { split; congruence. }
  split.
  - rewrite I, hash_of_inj. tauto.
  - intros N E. apply N. injection E as Et Em.
    unfold Repository.hash_of, Repository.hash_input. now rewrite Et, Em.
Qed.

(** ** Dotted paths *)

Lemma assoc_set_same {V} (k : string) (v : V) (l : list (string * V)) :
  assoc k (assoc_set k v l) = Some v.
Proof.
  induction l as [|[k' v'] l IH]; cbn.
  - now rewrite String.eqb_refl.
  - destruct (String.eqb k k') eqn:E; cbn.
    + now rewrite String.eqb_refl.
    + now rewrite E.
Qed.

Lemma walkable_empty (ks : list string) : walkable ks (JObj []) = true.
Proof. destruct ks; reflexivity. Qed.

Lemma set_path_walkable (ks : list string) (final : string) (value : json) :
  forall current, walkable ks current = true ->
  exists d,
    Repository.set_path ks final value current = Ok (JObj d) /\
    lookup_path (ks ++ [final]) (JObj d) = Some value.
Proof.
  induction ks as [|k ks IH]; intros current W.
  - destruct current; try discriminate. cbn.
    eexists. split; [reflexivity|]. now rewrite assoc_set_same.
  - destruct current as [| | | | |d]; try discriminate.
    cbn [Repository.set_path Py.contains rbind walkable] in *.
    destruct (assoc k d) as [child|] eqn:A.
    + cbn [Py.getitem rbind]. rewrite A. cbn [rbind].
      destruct (IH child W) as (d' & E & L). rewrite E. cbn [rbind Py.setitem].
      eexists. split; [reflexivity|].
      cbn [app lookup_path]. now rewrite assoc_set_same.
    + cbn [Py.setitem rbind Py.getitem]. rewrite assoc_set_same. cbn [rbind].
      destruct (IH (JObj []) (walkable_empty ks)) as (d' & E & L).
      rewrite E. cbn [rbind Py.setitem].
      eexists. split; [reflexivity|].
      cbn [app lookup_path]. now rewrite assoc_set_same.
Qed.

Lemma set_path_stuck (ks : list string) (final : string) (value : json) :
  forall current, walkable ks current = false ->
  Repository.set_path ks final value current = Raise TypeError.
Proof.
  induction ks as [|k ks IH]; intros current W.
  - destruct current; try reflexivity. discriminate.
  - destruct current as [| | |s|l|d]; try reflexivity.
    + cbn. destruct (is_substring k s); reflexivity.
    + cbn. destruct (existsb _ l); reflexivity.
    + cbn [Repository.set_path Py.contains rbind walkable] in *.
      destruct (assoc k d) as [child|] eqn:A.
      * cbn [Py.getitem rbind]. rewrite A. cbn [rbind]. now rewrite (IH child W).
      * discriminate.
Qed.

Lemma lookup_path_prefix (p : list string) : forall (q : list string) (k : string) x v,
  lookup_path (p ++ k :: q) x = Some v -> exists d, lookup_path p x = Some (JObj d).
Proof.
  induction p as [|a p IH]; intros q k x v L.
  - cbn in *. destruct x; try discriminate. eauto.
  - cbn [app lookup_path] in *. destruct x; try discriminate.
    destruct (assoc a entries); [|discriminate]. eapply IH; eassumption.
Qed.

Lemma split_on_cons (c : ascii) (s : string) : split_on c s <> [].
Proof.
  destruct s as [|c' s]; cbn; [discriminate|].
  destruct (Ascii.eqb c c'); [discriminate|].
  destruct (split_on c s); discriminate.
Qed.

Lemma set_config_eq (w : world) (d : dir) (cfg : json) (key value : string) :
  gyt_dir w = Some d ->
  loaded_config (Some d) = Ok cfg ->
  let keys := split_on "." key in
  Repository.set_config key value w =
  match Repository.set_path (removelast keys) (last keys "") (JStr value) cfg with
  | Ok cfg' =>
      (Ok tt, mk_world (Some (store config_file (Document cfg') d))
                       (trace w ++ [Wrote config_file (Document cfg')]))
  | Raise e => (Raise e, w)
  end.
Proof.
  intros Hd Hc. cbv zeta. unfold Repository.set_config, bind.
  rewrite get_config_eq, Hd, Hc. unfold lift.
  destruct (Repository.set_path _ _ _ cfg); [|reflexivity].
  unfold write_text, json_dumps. now rewrite Hd.
Qed.

(** C2, as the code has it.  In an initialized repository whose configuration
    can be read, [set_config] succeeds exactly when the configuration is a
    mapping and every intermediate segment that is present leads to a
    mapping; it then creates the missing segments as mappings and
    [get_config] gives a mapping in which the dotted path leads to the value.
    Otherwise it raises a [TypeError] and changes nothing. *)
Theorem set_config_then_get (w : world) (key value : string) (cfg : json) :
  fst (Repository.is_initialized w) = Ok true ->
  fst (Repository.get_config w) = Ok cfg ->
  let keys := split_on "." key in
  if walkable (removelast keys) cfg then
    exists w' d,
      Repository.set_config key value w = (Ok tt, w') /\
      fst (Repository.get_config w') = Ok (JObj d) /\
      lookup_path keys (JObj d) = Some (JStr value) /\
      (forall p k q, keys = (p ++ k :: q)%list ->
                     exists d', lookup_path p (JObj d) = Some (JObj d'))
  else Repository.set_config key value w = (Raise TypeError, w).
Proof.
  intros Hi Hc keys. destruct (is_initialized_dir w Hi) as [dir0 Hd].
  rewrite get_config_eq, Hd in Hc. cbn [fst] in Hc.
  pose proof (set_config_eq w dir0 cfg key value Hd Hc) as E. cbv zeta in E.
  fold keys in E.
  assert (K : (removelast keys ++ [last keys ""])%list = keys).
  { symmetry. apply app_removelast_last. apply split_on_cons. }
  destruct (walkable (removelast keys) cfg) eqn:W.
  - destruct (set_path_walkable _ (last keys "") (JStr value) cfg W) as (d & S & L).
    rewrite S in E. rewrite K in L.
    eexists. exists d. split; [exact E|]. split; [|split].
    + rewrite get_config_eq. reflexivity.
    + exact L.
    + intros p k q Ek. rewrite Ek in L. eapply lookup_path_prefix. exact L.
  - rewrite (set_path_stuck _ _ _ cfg W) in E. exact E.
Qed.

(** ** [push] *)

Lemma loaded_config_raise (d : option dir) (e : exn) :
  loaded_config d = Raise e -> e = JSONDecodeError.
Proof.
  destruct d as [[s c [[|doc]|]]|]; cbn; intros E; try discriminate.
  now injection E.
Qed.

Lemma resolve_remote_raise (remote : option string) (cfg : json) (e : exn) :
  Cli.resolve_remote remote cfg = Raise e -> e = AttributeError.
Proof.
  unfold Cli.resolve_remote. destruct remote as [[|c r]|]; try discriminate;
    (destruct cfg as [| | | | |d]; cbn; try (intros E; now injection E);
     destruct (assoc "remote" d) as [[| | | | |d']|]; cbn;
     intros E; try discriminate; now injection E).
Qed.

Lemma resolve_remote_none (cfg url : json) :
  Cli.resolve_remote None cfg = Ok url ->
  lookup_path ["remote"; "url"] cfg = Some url \/ url = JStr "".
Proof.
  unfold Cli.resolve_remote.
  destruct cfg as [| | | | |d]; cbn; try discriminate.
  destruct (assoc "remote" d) as [[| | | | |d']|]; cbn; try discriminate.
  - destruct (assoc "url" d'); intros E; injection E as <-; auto.
  - intros E; injection E as <-; auto.
Qed.

Lemma push_run (remote : option string) (w : world) :
  exists (r : result unit) (out : list event),
    Cli.push remote w = (r, mk_world (gyt_dir w) (trace w ++ out)) /\
    only_prints out /\
    ((forall cfg url, loaded_config (gyt_dir w) = Ok cfg ->
                      Cli.resolve_remote remote cfg = Ok url -> Py.truthy url = false) ->
     Cli.exit_code r = 1 /\ no_pushing out).
Proof.
  unfold Cli.push, Cli.ensure_repo, Repository.is_initialized, bind.
  unfold dir_exists at 1. destruct w as [[d|] tr]; cbn [gyt_dir trace negb].
  - unfold ret at 1. rewrite get_config_eq. cbn [gyt_dir].
    destruct (loaded_config (Some d)) as [cfg|e] eqn:Ec.
    + unfold lift at 1.
      destruct (Cli.resolve_remote remote cfg) as [url|e] eqn:Er.
      * destruct (Py.truthy url) eqn:Et; cbn [negb].
        -- rewrite get_commits_eq. cbn [gyt_dir].
           destruct (loaded Commit.from_dict commits_file (Some d)) as [[|c cs]|e].
           ++ eexists; eexists. split; [reflexivity|]. split; [reflexivity|].
              intros H. rewrite (H cfg url eq_refl Er) in Et. discriminate.
           ++ unfold lift. destruct (Py.as_str url) as [u|e].
              ** unfold print, emit. cbn [gyt_dir trace]. rewrite <- app_assoc.
                 eexists; eexists. split; [reflexivity|]. split; [reflexivity|].
                 intros H. rewrite (H cfg url eq_refl Er) in Et. discriminate.
              ** exists (Raise e), []. rewrite app_nil_r.
                 split; [reflexivity|]. split; [reflexivity|].
                 intros H. rewrite (H cfg url eq_refl Er) in Et. discriminate.
           ++ exists (Raise e), []. rewrite app_nil_r.
              split; [reflexivity|]. split; [reflexivity|].
              intros H. rewrite (H cfg url eq_refl Er) in Et. discriminate.
        -- eexists; eexists. split; [reflexivity|]. split; [reflexivity|].
           intros _. split; [reflexivity|].
           intros line [E | []]. injection E as <-. reflexivity.
      * exists (Raise e), []. rewrite app_nil_r.
        split; [reflexivity|]. split; [reflexivity|].
        intros _. rewrite (resolve_remote_raise _ _ _ Er).
        split; [reflexivity | intros line []].
    + exists (Raise e), []. rewrite app_nil_r.
      split; [reflexivity|]. split; [reflexivity|].
      intros _. rewrite (loaded_config_raise _ _ Ec).
      split; [reflexivity | intros line []].
  - eexists; eexists. split; [reflexivity|]. split; [reflexivity|].
    intros _. split; [reflexivity|].
    intros line [E | []]. injection E as <-. reflexivity.
Qed.

(** What [push] does once a remote URL [url] is resolved: two console
    prints, or one when there is no commit. *)
Lemma push_resolved (remote : option string) (w : world) (cfg : json)
      (url : string) (cs : list Commit.t) :
  fst (Repository.is_initialized w) = Ok true ->
  fst (Repository.get_config w) = Ok cfg ->
  Cli.resolve_remote remote cfg = Ok (JStr url) ->
  url <> "" ->
  fst (Repository.get_commits w) = Ok cs ->
  Cli.push remote w =
  (Ok tt,
   mk_world (gyt_dir w)
     (trace w ++
      match cs with
      | [] => [Printed "[yellow]No commits to push.[/yellow]"]
      | _ :: _ =>
          [Printed ("[yellow]Pushing " ++ Cli.str_nat (List.length cs) ++
                    " commit(s) to " ++ url ++ "...[/yellow]");
           Printed "[dim]Note: Remote push not yet implemented. This will sync to gythub when available.[/dim]"]
      end)).
Proof.
  intros Hi Hc Hr Hu Hcs. destruct (is_initialized_dir w Hi) as [d Hd].
  rewrite get_config_eq in Hc. rewrite get_commits_eq in Hcs. cbn [fst] in Hc, Hcs.
  unfold Cli.push, Cli.ensure_repo, Repository.is_initialized, bind.
  unfold dir_exists at 1. rewrite Hd. cbn [negb]. unfold ret at 1.
  rewrite get_config_eq, Hc. unfold lift at 1. rewrite Hr.
  assert (T : Py.truthy (JStr url) = true).
  { cbn. destruct (String.eqb_spec url ""); [contradiction | reflexivity]. }
  rewrite T. cbn [negb]. rewrite get_commits_eq, Hcs.
  destruct cs as [|c cs].
  - unfold print, emit. now rewrite Hd.
  - unfold lift, Py.as_str, print, emit. cbn [gyt_dir trace].
    now rewrite <- app_assoc, Hd.
Qed.

(** C8.  Every effect of [push] is a console print and the directory is left
    as it is: nothing is sent anywhere, also when a remote URL is resolved.
    Without [--remote] and without a non-empty [remote.url] in the
    configuration, [push] exits with code 1 and prints no ["Pushing..."]
    line. *)
Theorem push_preflight (w : world) (remote : option string) :
  exists r out,
    Cli.push remote w = (r, mk_world (gyt_dir w) (trace w ++ out)) /\
    only_prints out /\
    (forall e, In e out -> Cli.is_write e = false) /\
    (remote = None ->
     (forall cfg url, fst (Repository.get_config w) = Ok cfg ->
        lookup_path ["remote"; "url"] cfg = Some url -> Py.truthy url = false) ->
     Cli.exit_code r = 1 /\ no_pushing out).
Proof.
  destruct (push_run remote w) as (r & out & E & P & H).
  exists r, out. split; [exact E|]. split; [exact P|]. split.
  - intros e He. unfold only_prints in P. rewrite forallb_forall in P.
    specialize (P e He). destruct e; [discriminate | discriminate | reflexivity].
  - intros -> Hcfg. apply H. intros cfg url Hc Hr.
    destruct (resolve_remote_none cfg url Hr) as [L | ->]; [|reflexivity].
    apply (Hcfg cfg url); [|exact L].
    rewrite get_config_eq. exact Hc.
Qed.

(** ** The statements at sample values *)

Lemma to_dict_from_dict_witness :
  Milestone.valid ran_tests = true /\ Commit.valid (hashed day_one) = true /\
  Milestone.from_dict (Milestone.to_dict ran_tests) = Ok ran_tests /\
  Commit.from_dict (Commit.to_dict (hashed day_one)) = Ok (hashed day_one).
Proof.
  split; [reflexivity|]. split; [reflexivity|].
  apply (to_dict_from_dict ran_tests (hashed day_one)); reflexivity.
Defined.

Lemma staged_in_call_order_witness :
  fst (Repository.is_initialized initialized) = Ok true /\
  fst (Repository.get_staged_milestones initialized) = Ok [] /\
  forallb Milestone.valid [wrote_docs; ran_tests] = true /\
  exists w',
    add_all [wrote_docs; ran_tests] initialized = (Ok tt, w') /\
    fst (Repository.get_staged_milestones w') = Ok [wrote_docs; ran_tests].
Proof.
  split; [reflexivity|]. split; [reflexivity|]. split; [reflexivity|].
  apply (staged_in_call_order initialized [wrote_docs; ran_tests]); reflexivity.
Defined.

Lemma commit_nothing_staged_witness :
  fst (Repository.get_staged_milestones initialized) = Ok [] /\
  exists out,
    Cli.commit "day 1" noon initialized =
      (Raise (Exit 1), mk_world (gyt_dir initialized) (trace initialized ++ out)) /\
    Cli.exit_code (fst (Cli.commit "day 1" noon initialized)) = 1 /\
    only_prints out /\
    (forall e, In e out -> Cli.is_write e = false).
Proof.
  split; [reflexivity|].
  apply (commit_nothing_staged initialized "day 1" noon); reflexivity.
Defined.

Lemma commit_moves_staged_witness :
  fst (Repository.is_initialized one_staged) = Ok true /\
  fst (Repository.get_staged_milestones one_staged) = Ok [wrote_docs] /\
  [wrote_docs] <> [] /\
  fst (Repository.get_commits one_staged) = Ok [] /\
  valid_datetime later = true /\
  exists w' c,
    Cli.commit "day 1" later one_staged = (Ok tt, w') /\
    fst (Repository.get_staged_milestones w') = Ok [] /\
    fst (Repository.get_commits w') = Ok ([] ++ [c])%list /\
    List.length ([] ++ [c]) = S (List.length (@nil Commit.t)) /\
    Commit.milestones c = [wrote_docs].
Proof.
  split; [reflexivity|]. split; [reflexivity|]. split; [discriminate|].
  split; [reflexivity|]. split; [reflexivity|].
  apply (commit_moves_staged one_staged "day 1" later [wrote_docs] []);
    try reflexivity; discriminate.
Defined.

Lemma add_commit_hash_witness :
  fst (Repository.is_initialized initialized) = Ok true /\
  fst (Repository.get_commits initialized) = Ok [] /\
  exists w' c' h,
    Repository.add_commit day_one initialized = (Ok c', w') /\
    Commit.commit_hash c' = Some h /\
    h = prefix 8 (Sha256.hexdigest
                    (encode (isoformat (Commit.timestamp day_one) ++
                             Commit.message day_one))) /\
    String.length h = 8%nat /\
    string_forall is_lower_hex h = true.
Proof.
  split; [reflexivity|]. split; [reflexivity|].
  apply (add_commit_hash initialized day_one []); reflexivity.
Defined.

Lemma hash_ignores_milestones_witness :
  Commit.timestamp day_one = Commit.timestamp day_one_bare /\
  Commit.message day_one = Commit.message day_one_bare /\
  Commit.milestones day_one <> Commit.milestones day_one_bare /\
  Repository.add_commit day_one initialized =
    (Ok (hashed day_one), snd (Repository.add_commit day_one initialized)) /\
  Repository.add_commit day_one_bare one_staged =
    (Ok (hashed day_one_bare), snd (Repository.add_commit day_one_bare one_staged)) /\
  Commit.commit_hash (hashed day_one) = Commit.commit_hash (hashed day_one_bare).
Proof.
  split; [reflexivity|]. split; [reflexivity|]. split; [discriminate|].
  split; [reflexivity|]. split; [reflexivity|].
  apply (hash_ignores_milestones
           initialized one_staged
           (snd (Repository.add_commit day_one initialized))
           (snd (Repository.add_commit day_one_bare one_staged))
           day_one day_one_bare (hashed day_one) (hashed day_one_bare));
    reflexivity.
Defined.

(** C3 fails as stated: two commits of the same instant with the messages
    ["day 17308"] and ["day 19286"] are both given the hash ["079b20a0"]. *)
Lemma distinct_commits_same_hash :
  (Commit.timestamp day_17308, Commit.message day_17308) <>
  (Commit.timestamp day_19286, Commit.message day_19286) /\
  exists w1 w2,
    Repository.add_commit day_17308 initialized = (Ok (hashed day_17308), w1) /\
    Repository.add_commit day_19286 w1 = (Ok (hashed day_19286), w2) /\
    Commit.commit_hash (hashed day_17308) = Some "079b20a0" /\
    Commit.commit_hash (hashed day_19286) = Some "079b20a0".
Proof.
  split; [discriminate|].
  eexists. eexists.
  split; [vm_compute; reflexivity|]. split; [vm_compute; reflexivity|].
  split; vm_compute; reflexivity.
Qed.

(** Two commits can also have the same hash input: the fraction of the
    timestamp of one is the start of the message of the other. *)
Lemma hash_input_shared :
  let c1 := Commit.mk ".000001x" [wrote_docs] noon None in
  let c2 := Commit.mk "x" [wrote_docs] (mk_datetime 2024 1 1 12 0 0 1 None) None in
  (Commit.timestamp c1, Commit.message c1) <> (Commit.timestamp c2, Commit.message c2) /\
  valid_datetime (Commit.timestamp c2) = true /\
  Repository.hash_input c1 = Repository.hash_input c2.
Proof. cbv zeta. split; [discriminate|]. split; reflexivity. Qed.

Lemma hashes_differ_iff_witness :
  Repository.add_commit day_one initialized =
    (Ok (hashed day_one), snd (Repository.add_commit day_one initialized)) /\
  Repository.add_commit day_17308 one_staged =
    (Ok (hashed day_17308), snd (Repository.add_commit day_17308 one_staged)) /\
  (Commit.commit_hash (hashed day_one) <> Commit.commit_hash (hashed day_17308) <->
   Sha256.ha (Sha256.digest (encode (Repository.hash_input day_one))) <>
   Sha256.ha (Sha256.digest (encode (Repository.hash_input day_17308)))) /\
  (Commit.commit_hash (hashed day_one) <> Commit.commit_hash (hashed day_17308) ->
   (Commit.timestamp day_one, Commit.message day_one) <>
   (Commit.timestamp day_17308, Commit.message day_17308)).
Proof.
  split; [reflexivity|]. split; [reflexivity|].
  apply (hashes_differ_iff
           initialized one_staged
           (snd (Repository.add_commit day_one initialized))
           (snd (Repository.add_commit day_17308 one_staged))
           day_one day_17308 (hashed day_one) (hashed day_17308));
    reflexivity.
Defined.

(** C2 fails as stated: in the configuration that [init] writes,
    ["user.name"] is a string, and [set_config "user.name.first"] raises. *)
Lemma set_config_through_leaf :
  fst (Repository.is_initialized initialized) = Ok true /\
  fst (Repository.get_config initialized) = Ok Repository.default_config /\
  Repository.set_config "user.name.first" "Ada" initialized =
    (Raise TypeError, initialized).
Proof. repeat split. Qed.

Lemma set_config_then_get_witness :
  fst (Repository.is_initialized initialized) = Ok true /\
  fst (Repository.get_config initialized) = Ok Repository.default_config /\
  walkable (removelast (split_on "." "a.b.c")) Repository.default_config = true /\
  exists w' d,
    Repository.set_config "a.b.c" "x" initialized = (Ok tt, w') /\
    fst (Repository.get_config w') = Ok (JObj d) /\
    lookup_path ["a"; "b"; "c"] (JObj d) = Some (JStr "x") /\
    (forall p k q, ["a"; "b"; "c"] = (p ++ k :: q)%list ->
                   exists d', lookup_path p (JObj d) = Some (JObj d')).
Proof.
  split; [reflexivity|]. split; [reflexivity|]. split; [reflexivity|].
  exact (set_config_then_get initialized "a.b.c" "x" Repository.default_config
           eq_refl eq_refl).
Defined.

Lemma push_preflight_witness :
  (forall cfg url, fst (Repository.get_config initialized) = Ok cfg ->
     lookup_path ["remote"; "url"] cfg = Some url -> Py.truthy url = false) /\
  exists r out,
    Cli.push None initialized =
      (r, mk_world (gyt_dir initialized) (trace initialized ++ out)) /\
    only_prints out /\
    Cli.exit_code r = 1 /\ no_pushing out.
Proof.
  assert (H : forall cfg url, fst (Repository.get_config initialized) = Ok cfg ->
     lookup_path ["remote"; "url"] cfg = Some url -> Py.truthy url = false).
  { intros cfg url Hc Hl. injection Hc as <-. injection Hl as <-. reflexivity. }
  split; [exact H|].
  destruct (push_preflight initialized None) as (r & out & E & P & _ & N).
  exists r, out. destruct (N eq_refl H) as [X Y]. auto.
Defined.

(** * Further properties of [models.py] *)

(** ** Reading *)

(** X1.  Reading has no effect, and a document that is not there reads as
    empty: no staged milestone, no commit, the empty configuration. *)
Theorem absent_documents_are_empty (w : world) :
  (fst (file_exists staging_file w) = Ok false ->
   Repository.get_staged_milestones w = (Ok [], w)) /\
  (fst (file_exists commits_file w) = Ok false ->
   Repository.get_commits w = (Ok [], w)) /\
  (fst (file_exists config_file w) = Ok false ->
   Repository.get_config w = (Ok (JObj []), w)) /\
  snd (Repository.get_staged_milestones w) = w /\
  snd (Repository.get_commits w) = w /\
  snd (Repository.get_config w) = w.
Proof.
  rewrite get_staged_milestones_eq, get_commits_eq, get_config_eq.
  unfold file_exists, loaded, loaded_config. cbn [fst snd].
  destruct w as [[[s c g]|] tr]; cbn [gyt_dir file staging commits config].
  - repeat split; try reflexivity.
    + destruct s; [discriminate | reflexivity].
    + destruct c; [discriminate | reflexivity].
    + destruct g; [discriminate | reflexivity].
  - repeat split; reflexivity.
Qed.

Lemma absent_documents_are_empty_witness :
  fst (file_exists staging_file fresh) = Ok false /\
  fst (file_exists commits_file fresh) = Ok false /\
  fst (file_exists config_file fresh) = Ok false /\
  Repository.get_staged_milestones fresh = (Ok [], fresh) /\
  Repository.get_commits fresh = (Ok [], fresh) /\
  Repository.get_config fresh = (Ok (JObj []), fresh).
Proof.
  destruct (absent_documents_are_empty fresh) as (A & B & C & _).
  split; [reflexivity|]. split; [reflexivity|]. split; [reflexivity|].
  split; [apply A; reflexivity|]. split; [apply B | apply C]; reflexivity.
Defined.

(** ** Writing *)

Lemma loaded_store_other {A} (f : json -> result A) (p q : path) (t : text) (d : dir) :
  p <> q -> loaded f p (Some (store q t d)) = loaded f p (Some d).
Proof. destruct p, q; intros N; try contradiction; reflexivity. Qed.

Lemma loaded_config_store (q : path) (t : text) (d : dir) :
  q <> config_file -> loaded_config (Some (store q t d)) = loaded_config (Some d).
Proof. destruct q; intros N; try contradiction; reflexivity. Qed.

(** X2.  [add_milestone] appends to whatever is staged: the milestones that
    were staged stay, in their order, and the new one comes last. *)
Theorem add_milestone_appends (w : world) (cur : list Milestone.t) (m : Milestone.t) :
  fst (Repository.is_initialized w) = Ok true ->
  fst (Repository.get_staged_milestones w) = Ok cur ->
  Milestone.valid m = true ->
  exists w',
    Repository.add_milestone m w = (Ok tt, w') /\
    fst (Repository.get_staged_milestones w') = Ok (cur ++ [m])%list.
Proof.
  intros Hi Hs Vm. destruct (is_initialized_dir w Hi) as [d Hd].
  rewrite get_staged_milestones_eq, Hd in Hs. cbn [fst] in Hs.
  eexists. split; [exact (add_milestone_eq w d cur m Hd Hs)|].
  rewrite get_staged_milestones_eq. cbn.
  fold (traverse Milestone.from_dict (map Milestone.to_dict (cur ++ [m]))).
  apply milestones_roundtrip. rewrite forallb_app.
  rewrite (loaded_valid_milestones _ _ _ Hs). cbn. now rewrite Vm.
Qed.

Lemma add_milestone_appends_witness :
  fst (Repository.is_initialized hand_edited) = Ok true /\
  fst (Repository.get_staged_milestones hand_edited) =
    Ok [Milestone.mk "by hand" noon []] /\
  Milestone.valid ran_tests = true /\
  exists w',
    Repository.add_milestone ran_tests hand_edited = (Ok tt, w') /\
    fst (Repository.get_staged_milestones w') =
      Ok ([Milestone.mk "by hand" noon []] ++ [ran_tests])%list.
Proof.
  split; [reflexivity|]. split; [reflexivity|]. split; [reflexivity|].
  apply (add_milestone_appends hand_edited [Milestone.mk "by hand" noon []] ran_tests);
    reflexivity.
Defined.

Lemma no_directory (w : world) :
  fst (Repository.is_initialized w) = Ok false -> gyt_dir w = None.
Proof.
  unfold Repository.is_initialized, dir_exists. cbn.
  destruct (gyt_dir w); [discriminate | reflexivity].
Qed.

Lemma set_config_no_directory (w : world) (key value : string) :
  gyt_dir w = None ->
  Repository.set_config key value w = (Raise FileNotFoundError, w).
Proof.
  intros Hd. unfold Repository.set_config, bind. rewrite get_config_eq, Hd.
  cbn [loaded_config]. unfold lift.
  destruct (set_path_walkable (removelast (split_on "." key))
              (last (split_on "." key) "") (JStr value) (JObj [])
              (walkable_empty _)) as (d & E & _).
  rewrite E. unfold write_text. now rewrite Hd.
Qed.

Lemma commit_unreadable (w : world) (e : exn) (message : string) (now : datetime) :
  loaded Milestone.from_dict staging_file (gyt_dir w) = Raise e ->
  Cli.commit message now w = (Raise e, w).
Proof.
  intros H.
  unfold Cli.commit, Cli.ensure_repo, Repository.is_initialized, bind at 1 2.
  unfold dir_exists at 1.
  destruct (gyt_dir w) as [d|] eqn:Hd; [|cbn in H; discriminate].
  cbn [negb]. unfold ret at 1. unfold bind at 1.
  rewrite get_staged_milestones_eq, Hd, H. reflexivity.
Qed.

(** X3.  The operations that write do not create [.gyt]: without it they
    raise [FileNotFoundError] and leave everything as it is. *)
Theorem writes_need_the_directory (w : world) (m : Milestone.t) (c : Commit.t)
        (key value : string) :
  fst (Repository.is_initialized w) = Ok false ->
  Repository.add_milestone m w = (Raise FileNotFoundError, w) /\
  Repository.clear_staging w = (Raise FileNotFoundError, w) /\
  Repository.add_commit c w = (Raise FileNotFoundError, w) /\
  Repository.set_config key value w = (Raise FileNotFoundError, w).
Proof.
  intros Hi. pose proof (no_directory w Hi) as Hd.
  repeat split.
  - unfold Repository.add_milestone, bind. rewrite get_staged_milestones_eq, Hd.
    cbn [loaded]. unfold write_text. now rewrite Hd.
  - unfold Repository.clear_staging, write_text. now rewrite Hd.
  - unfold Repository.add_commit, bind. rewrite get_commits_eq, Hd.
    cbn [loaded]. unfold write_text. now rewrite Hd.
  - now apply set_config_no_directory.
Qed.

Lemma writes_need_the_directory_witness :
  fst (Repository.is_initialized fresh) = Ok false /\
  Repository.add_milestone wrote_docs fresh = (Raise FileNotFoundError, fresh) /\
  Repository.clear_staging fresh = (Raise FileNotFoundError, fresh) /\
  Repository.add_commit day_one fresh = (Raise FileNotFoundError, fresh) /\
  Repository.set_config "user.name" "Ada" fresh = (Raise FileNotFoundError, fresh).
Proof.
  split; [reflexivity|].
  apply (writes_need_the_directory fresh wrote_docs day_one "user.name" "Ada").
  reflexivity.
Defined.

(** X4.  A document that cannot be read is not overwritten: the operation
    that has to read it first raises what the read raised and writes
    nothing. *)
Theorem unreadable_documents_are_kept (w : world) (e : exn) (m : Milestone.t)
        (c : Commit.t) (key value message : string) (now : datetime) :
  (fst (Repository.get_staged_milestones w) = Raise e ->
   Repository.add_milestone m w = (Raise e, w) /\
   Cli.commit message now w = (Raise e, w)) /\
  (fst (Repository.get_commits w) = Raise e ->
   Repository.add_commit c w = (Raise e, w)) /\
  (fst (Repository.get_config w) = Raise e ->
   Repository.set_config key value w = (Raise e, w)).
Proof.
  rewrite get_staged_milestones_eq, get_commits_eq, get_config_eq. cbn [fst].
  repeat split.
  - unfold Repository.add_milestone, bind. rewrite get_staged_milestones_eq.
    now rewrite H.
  - now apply commit_unreadable.
  - intros H. unfold Repository.add_commit, bind. rewrite get_commits_eq. now rewrite H.
  - intros H. unfold Repository.set_config, bind. rewrite get_config_eq. now rewrite H.
Qed.

Lemma unreadable_documents_are_kept_witness :
  fst (Repository.get_staged_milestones garbled) = Raise JSONDecodeError /\
  fst (Repository.get_commits garbled) = Raise JSONDecodeError /\
  fst (Repository.get_config garbled) = Raise JSONDecodeError /\
  Repository.add_milestone wrote_docs garbled = (Raise JSONDecodeError, garbled) /\
  Cli.commit "day 1" noon garbled = (Raise JSONDecodeError, garbled) /\
  Repository.add_commit day_one garbled = (Raise JSONDecodeError, garbled) /\
  Repository.set_config "user.name" "Ada" garbled = (Raise JSONDecodeError, garbled).
Proof.
  destruct (unreadable_documents_are_kept garbled JSONDecodeError wrote_docs day_one
              "user.name" "Ada" "day 1" noon) as (A & B & C).
  split; [reflexivity|]. split; [reflexivity|]. split; [reflexivity|].
  destruct (A eq_refl) as [A1 A2].
  split; [exact A1|]. split; [exact A2|]. split; [exact (B eq_refl) | exact (C eq_refl)].
Defined.

(** X5.  [clear_staging] empties the staging area whatever its document held,
    text that is no JSON included, and leaves the history and the
    configuration as they are. *)
Theorem clear_staging_resets (w : world) :
  fst (Repository.is_initialized w) = Ok true ->
  exists w',
    Repository.clear_staging w = (Ok tt, w') /\
    fst (Repository.get_staged_milestones w') = Ok [] /\
    fst (Repository.get_commits w') = fst (Repository.get_commits w) /\
    fst (Repository.get_config w') = fst (Repository.get_config w).
Proof.
  intros Hi. destruct (is_initialized_dir w Hi) as [d Hd].
  eexists. split.
  - unfold Repository.clear_staging, write_text. rewrite Hd. reflexivity.
  - rewrite !get_staged_milestones_eq, !get_commits_eq, !get_config_eq, Hd.
    repeat split.
Qed.

Lemma clear_staging_resets_witness :
  fst (Repository.is_initialized garbled) = Ok true /\
  fst (Repository.get_staged_milestones garbled) = Raise JSONDecodeError /\
  exists w',
    Repository.clear_staging garbled = (Ok tt, w') /\
    fst (Repository.get_staged_milestones w') = Ok [] /\
    fst (Repository.get_commits w') = fst (Repository.get_commits garbled) /\
    fst (Repository.get_config w') = fst (Repository.get_config garbled).
Proof.
  split; [reflexivity|]. split; [reflexivity|].
  apply (clear_staging_resets garbled). reflexivity.
Defined.

(** The directory after an operation: as before, or with one file stored. *)
Lemma add_milestone_dir (m : Milestone.t) (w : world) :
  gyt_dir (snd (Repository.add_milestone m w)) = gyt_dir w \/
  exists d t, gyt_dir w = Some d /\
              gyt_dir (snd (Repository.add_milestone m w)) = Some (store staging_file t d).
Proof.
  unfold Repository.add_milestone, bind. rewrite get_staged_milestones_eq.
  destruct (loaded Milestone.from_dict staging_file (gyt_dir w)); [|now left].
  unfold write_text. destruct (gyt_dir w) as [d|] eqn:Hd; [|left; cbn; now rewrite Hd].
  right. eexists. eexists. split; reflexivity.
Qed.

Lemma add_commit_dir (c : Commit.t) (w : world) :
  gyt_dir (snd (Repository.add_commit c w)) = gyt_dir w \/
  exists d t, gyt_dir w = Some d /\
              gyt_dir (snd (Repository.add_commit c w)) = Some (store commits_file t d).
Proof.
  unfold Repository.add_commit, bind. rewrite get_commits_eq.
  destruct (loaded Commit.from_dict commits_file (gyt_dir w)); [|now left].
  unfold write_text. destruct (gyt_dir w) as [d|] eqn:Hd; [|left; cbn; now rewrite Hd].
  right. eexists. eexists. split; reflexivity.
Qed.

Lemma set_config_dir (key value : string) (w : world) :
  gyt_dir (snd (Repository.set_config key value w)) = gyt_dir w \/
  exists d entries cfg,
    gyt_dir w = Some d /\ loaded_config (Some d) = Ok cfg /\
    gyt_dir (snd (Repository.set_config key value w)) =
      Some (store config_file (json_dumps (JObj entries)) d).
Proof.
  unfold Repository.set_config, bind. rewrite get_config_eq.
  destruct (loaded_config (gyt_dir w)) as [cfg|] eqn:Hc; [|now left].
  unfold lift.
  destruct (walkable (removelast (split_on "." key)) cfg) eqn:W.
  - destruct (set_path_walkable _ (last (split_on "." key) "") (JStr value) cfg W)
      as (entries & E & _).
    rewrite E. unfold write_text.
    destruct (gyt_dir w) as [d|] eqn:Hd; [|left; cbn; now rewrite Hd].
    right. exists d, entries, cfg. split; [reflexivity|]. split; [exact Hc | reflexivity].
  - rewrite (set_path_stuck _ _ _ cfg W). now left.
Qed.

(** X6.  Each operation that writes touches its own document only, whether
    it succeeds or raises: [add_milestone] leaves the history and the
    configuration, [add_commit] the staging area and the configuration,
    [set_config] the staging area and the history. *)
Theorem writes_keep_the_other_documents (w : world) (m : Milestone.t) (c : Commit.t)
        (key value : string) :
  let wm := snd (Repository.add_milestone m w) in
  let wc := snd (Repository.add_commit c w) in
  let ws := snd (Repository.set_config key value w) in
  fst (Repository.get_commits wm) = fst (Repository.get_commits w) /\
  fst (Repository.get_config wm) = fst (Repository.get_config w) /\
  fst (Repository.get_staged_milestones wc) = fst (Repository.get_staged_milestones w) /\
  fst (Repository.get_config wc) = fst (Repository.get_config w) /\
  fst (Repository.get_staged_milestones ws) = fst (Repository.get_staged_milestones w) /\
  fst (Repository.get_commits ws) = fst (Repository.get_commits w).
Proof.
  cbv zeta. rewrite !get_staged_milestones_eq, !get_commits_eq, !get_config_eq.
  cbn [fst].
  split; [|split]; [| |split; [|split; [|split]]].
  - destruct (add_milestone_dir m w) as [-> | (d & t & H & ->)];
      [reflexivity | now rewrite H].
  - destruct (add_milestone_dir m w) as [-> | (d & t & H & ->)];
      [reflexivity | now rewrite H].
  - destruct (add_commit_dir c w) as [-> | (d & t & H & ->)];
      [reflexivity | now rewrite H].
  - destruct (add_commit_dir c w) as [-> | (d & t & H & ->)];
      [reflexivity | now rewrite H].
  - destruct (set_config_dir key value w) as [-> | (d & e & g & H & _ & ->)];
      [reflexivity | now rewrite H].
  - destruct (set_config_dir key value w) as [-> | (d & e & g & H & _ & ->)];
      [reflexivity | now rewrite H].
Qed.

(** X7.  [add_commit] appends to the history: the commits that were there
    stay, in their order, and the new one, with its hash, comes last. *)
Theorem add_commit_appends (w : world) (cs : list Commit.t) (c : Commit.t) :
  fst (Repository.is_initialized w) = Ok true ->
  fst (Repository.get_commits w) = Ok cs ->
  Commit.valid c = true ->
  exists w',
    Repository.add_commit c w = (Ok (hashed c), w') /\
    fst (Repository.get_commits w') = Ok (cs ++ [hashed c])%list.
Proof.
  intros Hi Hc Vc. destruct (is_initialized_dir w Hi) as [d Hd].
  rewrite get_commits_eq, Hd in Hc. cbn [fst] in Hc.
  eexists. split; [exact (add_commit_eq w d cs c Hd Hc)|].
  rewrite get_commits_eq. cbn.
  fold (traverse Commit.from_dict (map Commit.to_dict (cs ++ [hashed c]))).
  apply commits_roundtrip. rewrite forallb_app.
  rewrite (loaded_valid_commits _ _ _ Hc). cbn [forallb]. rewrite andb_true_r. exact Vc.
Qed.

Lemma add_commit_appends_witness :
  fst (Repository.is_initialized initialized) = Ok true /\
  fst (Repository.get_commits initialized) = Ok [] /\
  Commit.valid day_one = true /\
  exists w',
    Repository.add_commit day_one initialized = (Ok (hashed day_one), w') /\
    fst (Repository.get_commits w') = Ok ([] ++ [hashed day_one])%list.
Proof.
  split; [reflexivity|]. split; [reflexivity|]. split; [reflexivity|].
  apply (add_commit_appends initialized [] day_one); reflexivity.
Defined.

(** ** Other settings *)

Lemma assoc_set_other {V} (k k' : string) (v : V) (l : list (string * V)) :
  k <> k' -> assoc k' (assoc_set k v l) = assoc k' l.
Proof.
  intros N. induction l as [|[a x] l IH]; cbn.
  - destruct (String.eqb_spec k' k); [congruence | reflexivity].
  - destruct (String.eqb_spec k a) as [->|Na]; cbn.
    + destruct (String.eqb_spec k' a); [congruence | reflexivity].
    + destruct (String.eqb_spec k' a); [reflexivity | exact IH].
Qed.

Lemma diverge_nil (q : list string) : ~ diverge [] q.
Proof.
  intros (common & a & b & p' & q' & _ & E & _). destruct common; discriminate.
Qed.

Lemma diverge_cons (k : string) (p q : list string) :
  diverge (k :: p) q ->
  (exists b q', q = b :: q' /\ k <> b) \/ (exists q', q = k :: q' /\ diverge p q').
Proof.
  intros (common & a & b & p' & q' & N & E & ->).
  destruct common as [|c common]; cbn in E; injection E as E1 E2; subst.
  - left. exists b, q'. split; [reflexivity | exact N].
  - right. exists (common ++ b :: q')%list. split; [reflexivity|].
    exists common, a, b, p', q'. repeat split. exact N.
Qed.

Lemma lookup_path_empty (k : string) (q : list string) :
  lookup_path (k :: q) (JObj []) = None.
Proof. reflexivity. Qed.

Lemma diverge_cons_r (p q : list string) : diverge p q -> exists b q', q = b :: q'.
Proof.
  intros (common & a & b & p' & q' & _ & _ & ->). destruct common; cbn; eauto.
Qed.

Lemma set_path_other (ks : list string) (final : string) (value : json) :
  forall current current' q,
  Repository.set_path ks final value current = Ok current' ->
  diverge (ks ++ [final]) q ->
  lookup_path q current' = lookup_path q current.
Proof.
  induction ks as [|k ks IH]; intros current current' q E D.
  - cbn [app] in D. apply diverge_cons in D as [(b & q' & -> & N) | (q' & _ & D)];
      [|now apply diverge_nil in D].
    destruct current as [| | | | |d]; try discriminate.
    cbn in E. injection E as <-. cbn [lookup_path].
    now rewrite (assoc_set_other _ _ _ _ N).
  - destruct current as [| | |s|l|d].
    1-3: discriminate.
    + cbn in E. destruct (is_substring k s); discriminate.
    + cbn in E. destruct (existsb _ l); discriminate.
    + cbn [Repository.set_path Py.contains rbind] in E.
      cbn [app] in D.
      destruct (assoc k d) as [child|] eqn:A.
      * cbn [Py.getitem rbind] in E. rewrite A in E. cbn [rbind] in E.
        destruct (Repository.set_path ks final value child) as [child'|] eqn:S;
          [|discriminate].
        cbn in E. injection E as <-.
        apply diverge_cons in D as [(b & q' & -> & N) | (q' & -> & D)]; cbn [lookup_path].
        -- now rewrite (assoc_set_other _ _ _ _ N).
        -- rewrite assoc_set_same, A. exact (IH child child' q' S D).
      * cbn [Py.setitem rbind Py.getitem] in E. rewrite assoc_set_same in E.
        cbn [rbind] in E.
        destruct (Repository.set_path ks final value (JObj [])) as [child'|] eqn:S;
          [|discriminate].
        cbn in E. injection E as <-.
        apply diverge_cons in D as [(b & q' & -> & N) | (q' & -> & D)]; cbn [lookup_path].
        -- now rewrite !(assoc_set_other _ _ _ _ N).
        -- rewrite assoc_set_same, A.
           rewrite (IH (JObj []) child' q' S D).
           destruct (diverge_cons_r _ _ D) as (b & q'' & ->). reflexivity.
Qed.

(** X8.  [set_config] leaves the other settings alone: a dotted path that
    parts ways with the key leads, after the call, to what it led to
    before (or nowhere, as before). *)
Theorem set_config_keeps_other_settings (w w' : world) (key value : string)
        (cfg : json) (q : list string) :
  fst (Repository.get_config w) = Ok cfg ->
  Repository.set_config key value w = (Ok tt, w') ->
  diverge (split_on "." key) q ->
  exists cfg',
    fst (Repository.get_config w') = Ok cfg' /\
    lookup_path q cfg' = lookup_path q cfg.
Proof.
  intros Hc E D. rewrite get_config_eq in Hc. cbn [fst] in Hc.
  destruct (gyt_dir w) as [d|] eqn:Hd.
  - rewrite (set_config_eq w d cfg key value Hd Hc) in E.
    destruct (Repository.set_path _ _ _ cfg) as [cfg'|] eqn:S; [|discriminate].
    injection E as <-. exists cfg'. split; [now rewrite get_config_eq|].
    apply (set_path_other _ _ _ _ _ _ S).
    rewrite <- app_removelast_last by apply split_on_cons. exact D.
  - rewrite (set_config_no_directory w key value Hd) in E. discriminate.
Qed.

Lemma set_config_keeps_other_settings_witness :
  fst (Repository.get_config initialized) = Ok Repository.default_config /\
  Repository.set_config "user.name" "Ada" initialized =
    (Ok tt, snd (Repository.set_config "user.name" "Ada" initialized)) /\
  diverge (split_on "." "user.name") ["user"; "email"] /\
  exists cfg',
    fst (Repository.get_config (snd (Repository.set_config "user.name" "Ada" initialized)))
      = Ok cfg' /\
    lookup_path ["user"; "email"] cfg' =
    lookup_path ["user"; "email"] Repository.default_config.
Proof.
  assert (D : diverge (split_on "." "user.name") ["user"; "email"]).
  { exists ["user"], "name", "email", [], []. repeat split. discriminate. }
  split; [reflexivity|]. split; [reflexivity|]. split; [exact D|].
  exact (set_config_keeps_other_settings initialized _ "user.name" "Ada"
           Repository.default_config ["user"; "email"] eq_refl eq_refl D).
Defined.

(** ** Records read from a document *)

Lemma assoc_app {V} (k : string) (l l' : list (string * V)) :
  assoc k (l ++ l') = match assoc k l with Some v => Some v | None => assoc k l' end.
Proof.
  induction l as [|[a x] l IH]; cbn; [reflexivity|].
  destruct (String.eqb k a); [reflexivity | exact IH].
Qed.

(** X9.  [Milestone.from_dict] asks for ["message"] first, then for
    ["timestamp"]: the first of them that is missing is the [KeyError];
    ["tags"] may be missing and then reads as the empty list. *)
Theorem milestone_from_dict_missing (d : list (string * json)) :
  (assoc "message" d = None ->
   Milestone.from_dict (JObj d) = Raise (KeyError "message")) /\
  (assoc "message" d <> None -> assoc "timestamp" d = None ->
   Milestone.from_dict (JObj d) = Raise (KeyError "timestamp")) /\
  (assoc "tags" d = None ->
   Milestone.from_dict (JObj d) = Milestone.from_dict (JObj (d ++ [("tags", JArr [])]))).
Proof.
  unfold Milestone.from_dict. cbn [Py.getitem Py.get]. repeat split.
  - intros ->. reflexivity.
  - intros Hm Ht. rewrite Ht. destruct (assoc "message" d); [reflexivity | contradiction].
  - intros Hg. rewrite !assoc_app, Hg.
    destruct (assoc "message" d); destruct (assoc "timestamp" d); reflexivity.
Qed.

Lemma milestone_from_dict_missing_witness :
  assoc "tags" [ ("message", JStr "by hand"); ("timestamp", JStr "2024-01-01 12:00") ] = None /\
  assoc "message" [ ("timestamp", JStr "2024-01-01 12:00") ] = None /\
  Milestone.from_dict bare_record = Ok (Milestone.mk "by hand" noon []) /\
  Milestone.from_dict (JObj [ ("timestamp", JStr "2024-01-01 12:00") ]) =
    Raise (KeyError "message").
Proof.
  split; [reflexivity|]. split; [reflexivity|]. split.
  - unfold bare_record.
    rewrite (proj2 (proj2 (milestone_from_dict_missing
               [ ("message", JStr "by hand"); ("timestamp", JStr "2024-01-01 12:00") ]))
               eq_refl).
    reflexivity.
  - apply (proj1 (milestone_from_dict_missing [ ("timestamp", JStr "2024-01-01 12:00") ])).
    reflexivity.
Defined.





(** X12.  What was read can be written and read again: a milestone or a
    commit that [from_dict] gave is given back by [from_dict] after
    [to_dict], whatever the form of the record it came from. *)
Theorem reloaded_records_are_stable (jm jc : json) (m : Milestone.t) (c : Commit.t) :
  Milestone.from_dict jm = Ok m ->
  Commit.from_dict jc = Ok c ->
  Milestone.from_dict (Milestone.to_dict m) = Ok m /\
  Commit.from_dict (Commit.to_dict c) = Ok c.
Proof.
  intros Hm Hc. split.
  - apply milestone_roundtrip. exact (milestone_from_dict_valid jm m Hm).
  - apply commit_roundtrip. exact (commit_from_dict_valid jc c Hc).
Qed.


Lemma reloaded_records_are_stable_witness :
  Milestone.from_dict bare_record = Ok (Milestone.mk "by hand" noon []) /\
  Commit.from_dict (Commit.to_dict day_one) = Ok day_one /\
  Milestone.to_dict (Milestone.mk "by hand" noon []) <> bare_record /\
  Milestone.from_dict (Milestone.to_dict (Milestone.mk "by hand" noon [])) =
    Ok (Milestone.mk "by hand" noon []) /\
  Commit.from_dict (Commit.to_dict day_one) = Ok day_one.
Proof.
  split; [reflexivity|]. split; [reflexivity|]. split; [discriminate|].
  apply (reloaded_records_are_stable bare_record (Commit.to_dict day_one)); reflexivity.
Defined.

(** * Further properties of [cli.py] *)

(** ** Commands that only read *)

Lemma only_prints_app (a b : list event) :
  only_prints a -> only_prints b -> only_prints (a ++ b).
Proof. unfold only_prints. intros Ha Hb. now rewrite forallb_app, Ha, Hb. Qed.

Lemma quiet_ret {A} (a : A) : quiet (ret a).
Proof. intros w. exists []. rewrite app_nil_r. destruct w. now split. Qed.

Lemma quiet_raise {A} (e : exn) : quiet (@raise A e).
Proof. intros w. exists []. rewrite app_nil_r. destruct w. now split. Qed.

Lemma quiet_lift {A} (r : result A) : quiet (lift r).
Proof. intros w. exists []. rewrite app_nil_r. destruct w. now split. Qed.

Lemma quiet_print (line : string) : quiet (print line).
Proof. intros w. exists [Printed line]. now split. Qed.

Lemma quiet_bind {A B} (m : M A) (k : A -> M B) :
  quiet m -> (forall a, quiet (k a)) -> quiet (bind m k).
Proof.
  intros Hm Hk w. unfold bind. destruct (Hm w) as (out1 & E1 & P1).
  destruct (m w) as [[a|e] w1]; cbn [snd] in E1; subst w1.
  - destruct (Hk a (mk_world (gyt_dir w) (trace w ++ out1))) as (out2 & E2 & P2).
    exists (out1 ++ out2)%list. rewrite E2. cbn [gyt_dir trace].
    rewrite app_assoc. split; [reflexivity | now apply only_prints_app].
  - exists out1. now split.
Qed.

Lemma quiet_for_each {A} (body : A -> M unit) (l : list A) :
  (forall x, quiet (body x)) -> quiet (for_each body l).
Proof.
  intros Hb. induction l as [|x l IH]; cbn [for_each].
  - apply quiet_ret.
  - apply quiet_bind; [apply Hb | intros _; exact IH].
Qed.

Lemma quiet_of_eq {A} (m : M A) (f : world -> result A) :
  (forall w, m w = (f w, w)) -> quiet m.
Proof.
  intros H w. exists []. rewrite H, app_nil_r. destruct w. now split.
Qed.

Lemma quiet_get_staged_milestones : quiet Repository.get_staged_milestones.
Proof. eapply quiet_of_eq. intros w. apply get_staged_milestones_eq. Qed.

Lemma quiet_get_commits : quiet Repository.get_commits.
Proof. eapply quiet_of_eq. intros w. apply get_commits_eq. Qed.

Lemma quiet_get_config : quiet Repository.get_config.
Proof. eapply quiet_of_eq. intros w. apply get_config_eq. Qed.

Lemma quiet_ensure_repo : quiet Cli.ensure_repo.
Proof.
  unfold Cli.ensure_repo. apply quiet_bind.
  - apply (quiet_of_eq _ (fun w => Ok (match gyt_dir w with
                                        | Some _ => true
                                        | None => false
                                        end))).
    reflexivity.
  - intros [|]; cbn [negb]; [apply quiet_ret|].
    apply quiet_bind; [apply quiet_print | intros _; apply quiet_raise].
Qed.

Ltac quiet_step :=
  first [ apply quiet_ensure_repo | apply quiet_get_staged_milestones
        | apply quiet_get_commits | apply quiet_get_config
        | apply quiet_print | apply quiet_ret | apply quiet_raise | apply quiet_lift
        | apply quiet_for_each; intros ?
        | apply quiet_bind; [|intros ?] ].

Lemma quiet_status (panel : string -> string) : quiet (Cli.status panel).
Proof.
  unfold Cli.status. do 3 (apply quiet_bind; [quiet_step | intros ?]).
  apply quiet_bind; [|intros ?; repeat quiet_step].
  destruct a0; repeat quiet_step.
Qed.

Lemma quiet_log (strftime : datetime -> string) (limit : Z) :
  quiet (Cli.log strftime limit).
Proof.
  unfold Cli.log. do 2 (apply quiet_bind; [quiet_step | intros ?]).
  destruct a0; [quiet_step|].
  apply quiet_for_each. intros c. unfold Cli.log_commit. repeat quiet_step.
Qed.

Lemma quiet_push (remote : option string) : quiet (Cli.push remote).
Proof.
  unfold Cli.push. do 3 (apply quiet_bind; [quiet_step | intros ?]).
  destruct (negb (Py.truthy a1)); [repeat quiet_step|].
  apply quiet_bind; [quiet_step | intros cs].
  destruct cs; repeat quiet_step.
Qed.

Lemma quiet_config_read (repr dumps : json -> string) (key value : option string) :
  given key && given value = false -> quiet (Cli.config repr dumps key value).
Proof.
  intros G. unfold Cli.config. apply quiet_bind; [quiet_step | intros _].
  destruct key as [[|a k]|]; [repeat quiet_step | | repeat quiet_step].
  destruct value as [[|b v]|]; [repeat quiet_step | discriminate | repeat quiet_step].
Qed.

(** X13.  [status], [log], [push] and [config] without a value to set only
    read: whatever the repository holds and however the command ends, the
    directory is as before and every effect is a console print. *)
Theorem read_only_commands_are_quiet (R : renderer) (c : command) (w : world) :
  read_only c = true ->
  exists out,
    snd (run R c w) = mk_world (gyt_dir w) (trace w ++ out) /\
    only_prints out /\
    (forall e, In e out -> Cli.is_write e = false).
Proof.
  intros H.
  assert (Q : quiet (run R c)).
  { destruct c; try discriminate; cbn [run].
    - apply quiet_status.
    - apply quiet_log.
    - apply quiet_config_read. cbn in H. now apply negb_true_iff in H.
    - apply quiet_push. }
  destruct (Q w) as (out & E & P). exists out. split; [exact E|]. split; [exact P|].
  intros e He. unfold only_prints in P. rewrite forallb_forall in P.
  specialize (P e He). destruct e; [discriminate | discriminate | reflexivity].
Qed.

Lemma read_only_commands_are_quiet_witness :
  read_only (CmdLog 0) = true /\
  exists out,
    snd (run (mk_renderer (fun s => s) isoformat (fun _ => "") (fun _ => ""))
             (CmdLog 0) one_staged) =
      mk_world (gyt_dir one_staged) (trace one_staged ++ out) /\
    only_prints out /\
    (forall e, In e out -> Cli.is_write e = false).
Proof.
  split; [reflexivity|].
  apply (read_only_commands_are_quiet
           (mk_renderer (fun s => s) isoformat (fun _ => "") (fun _ => ""))
           (CmdLog 0) one_staged).
  reflexivity.
Defined.

(** ** The gate of the commands *)

Lemma gate_closed (R : renderer) (c : command) (w : world) :
  c <> CmdInit ->
  gyt_dir w = None ->
  run R c w =
  (Raise (Exit 1),
   mk_world (gyt_dir w)
     (trace w ++ [Printed "[red]Not a gyt repository. Run 'gyt init' first.[/red]"])).
Proof.
  intros N Hd.
  assert (G : forall A (k : unit -> M A),
             bind Cli.ensure_repo k w =
             (Raise (Exit 1),
              mk_world (gyt_dir w)
                (trace w ++
                 [Printed "[red]Not a gyt repository. Run 'gyt init' first.[/red]"]))).
  { intros A k. unfold bind, Cli.ensure_repo, Repository.is_initialized, bind, dir_exists.
    rewrite Hd. cbn [negb]. unfold print, emit, raise. now rewrite Hd. }
  destruct c; cbn [run]; try contradiction;
    (unfold Cli.add, Cli.commit, Cli.status, Cli.log, Cli.config, Cli.push; apply G).
Qed.

(** X14.  Without [.gyt], every command but [init] exits with code 1 after
    one line on the console, and changes nothing. *)
Theorem commands_need_init (R : renderer) (c : command) (w : world) :
  c <> CmdInit ->
  fst (Repository.is_initialized w) = Ok false ->
  run R c w =
  (Raise (Exit 1),
   mk_world (gyt_dir w)
     (trace w ++ [Printed "[red]Not a gyt repository. Run 'gyt init' first.[/red]"])).
Proof.
  intros N Hi. apply gate_closed; [exact N | exact (no_directory w Hi)].
Qed.

Lemma commands_need_init_witness :
  CmdCommit "day 1" noon <> CmdInit /\
  fst (Repository.is_initialized fresh) = Ok false /\
  run (mk_renderer (fun s => s) isoformat (fun _ => "") (fun _ => ""))
      (CmdCommit "day 1" noon) fresh =
  (Raise (Exit 1),
   mk_world (gyt_dir fresh)
     (trace fresh ++ [Printed "[red]Not a gyt repository. Run 'gyt init' first.[/red]"])).
Proof.
  split; [discriminate|]. split; [reflexivity|].
  apply commands_need_init; [discriminate | reflexivity].
Defined.

(** ** [add] *)

Lemma add_run (message : option string) (all : bool) (now : datetime)
      (w : world) (d : dir) (cur : list Milestone.t) (text : string) :
  gyt_dir w = Some d ->
  loaded Milestone.from_dict staging_file (Some d) = Ok cur ->
  (if all || match message with Some m => String.eqb m "." | None => false end
   then text = "Daily progress"
   else message = Some text /\ text <> "") ->
  let m := Milestone.mk text now [] in
  let t := json_dumps (JArr (map Milestone.to_dict (cur ++ [m]))) in
  Cli.add message all now w =
  (Ok tt,
   mk_world (Some (store staging_file t d))
     (trace w ++ [Wrote staging_file t; Printed ("[green]Added milestone:[/green] " ++ text)])).
Proof.
  intros Hd Hl Ht. cbv zeta.
  unfold Cli.add, Cli.ensure_repo, Repository.is_initialized, bind at 1 2.
  unfold dir_exists at 1. rewrite Hd. cbn [negb]. unfold ret at 1.
  unfold bind at 1.
  destruct (all || match message with Some m => String.eqb m "." | None => false end).
  - subst text. unfold ret at 1. unfold bind at 1.
    rewrite (add_milestone_eq w d cur _ Hd Hl).
    unfold print, emit. cbn [gyt_dir trace Milestone.message].
    rewrite <- app_assoc. reflexivity.
  - destruct Ht as [-> Hne]. destruct text as [|c0 text]; [contradiction|].
    unfold ret at 1. unfold bind at 1.
    rewrite (add_milestone_eq w d cur _ Hd Hl).
    unfold print, emit. cbn [gyt_dir trace Milestone.message].
    rewrite <- app_assoc. reflexivity.
Qed.

(** X15.  [add] stages one milestone, after those already staged, with the
    clock's time and no tags: its message is ["Daily progress"] with
    [--all] or for the message ["."], the given message otherwise. *)
Theorem add_stages_one_milestone (message : option string) (all : bool)
        (now : datetime) (w : world) (cur : list Milestone.t) :
  fst (Repository.is_initialized w) = Ok true ->
  fst (Repository.get_staged_milestones w) = Ok cur ->
  valid_datetime now = true ->
  all || given message = true ->
  exists w' text,
    Cli.add message all now w = (Ok tt, w') /\
    fst (Repository.get_staged_milestones w') =
      Ok (cur ++ [Milestone.mk text now []])%list /\
    fst (Repository.get_commits w') = fst (Repository.get_commits w) /\
    (all = true \/ message = Some "." -> text = "Daily progress") /\
    (all = false -> message <> Some "." -> message = Some text).
Proof.
  intros Hi Hs Vn G. destruct (is_initialized_dir w Hi) as [d Hd].
  rewrite get_staged_milestones_eq, Hd in Hs. cbn [fst] in Hs.
  set (dot := match message with Some m => String.eqb m "." | None => false end).
  set (text := if all || dot then "Daily progress"
               else match message with Some s => s | None => "" end).
  assert (Ht : if all || dot then text = "Daily progress"
               else message = Some text /\ text <> "").
  { unfold text. destruct (all || dot) eqn:E; [reflexivity|].
    apply orb_false_iff in E as [-> _]. cbn in G.
    destruct message as [[|c0 s]|]; try discriminate. split; [reflexivity | discriminate]. }
  eexists. exists text.
  split; [exact (add_run message all now w d cur text Hd Hs Ht)|].
  split; [|split; [|split]].
  - rewrite get_staged_milestones_eq. cbn.
    fold (traverse Milestone.from_dict
            (map Milestone.to_dict (cur ++ [Milestone.mk text now []]))).
    apply milestones_roundtrip. rewrite forallb_app.
    rewrite (loaded_valid_milestones _ _ _ Hs). cbn. unfold Milestone.valid. cbn.
    now rewrite Vn.
  - rewrite !get_commits_eq, Hd. reflexivity.
  - intros [-> | ->]; unfold text, dot; [reflexivity|].
    cbn. now rewrite orb_true_r.
  - intros -> Hn. unfold text, dot. cbn [orb].
    destruct message as [s|]; [|cbn in G; discriminate].
    destruct (String.eqb_spec s "."); [congruence | reflexivity].
Qed.

Lemma add_no_message_run (message : option string) (now : datetime) (w : world)
      (d : dir) :
  gyt_dir w = Some d ->
  given message = false ->
  Cli.add message false now w =
  (Raise (Exit 1),
   mk_world (gyt_dir w)
     (trace w ++
      [Printed "[red]Please provide a milestone message or use --all/-a[/red]"])).
Proof.
  intros Hd G.
  unfold Cli.add, Cli.ensure_repo, Repository.is_initialized, bind at 1 2.
  unfold dir_exists at 1. rewrite Hd. cbn [negb orb]. unfold ret at 1.
  destruct message as [[|c0 s]|]; try discriminate; cbn; now rewrite Hd.
Qed.

(** X16.  [add] with neither a message nor [--all] (an empty message counts
    as none) exits with code 1 after one line on the console; nothing is
    staged and nothing is written. *)
Theorem add_without_message (message : option string) (now : datetime) (w : world) :
  fst (Repository.is_initialized w) = Ok true ->
  given message = false ->
  Cli.add message false now w =
  (Raise (Exit 1),
   mk_world (gyt_dir w)
     (trace w ++
      [Printed "[red]Please provide a milestone message or use --all/-a[/red]"])).
Proof.
  intros Hi G. destruct (is_initialized_dir w Hi) as [d Hd].
  exact (add_no_message_run message now w d Hd G).
Qed.

Lemma add_stages_one_milestone_witness :
  fst (Repository.is_initialized one_staged) = Ok true /\
  fst (Repository.get_staged_milestones one_staged) = Ok [wrote_docs] /\
  valid_datetime later = true /\
  false || given (Some ".") = true /\
  exists w' text,
    Cli.add (Some ".") false later one_staged = (Ok tt, w') /\
    fst (Repository.get_staged_milestones w') =
      Ok ([wrote_docs] ++ [Milestone.mk text later []])%list /\
    fst (Repository.get_commits w') = fst (Repository.get_commits one_staged) /\
    (false = true \/ Some "." = Some "." -> text = "Daily progress") /\
    (false = false -> Some "." <> Some "." -> Some "." = Some text).
Proof.
  split; [reflexivity|]. split; [reflexivity|]. split; [reflexivity|].
  split; [reflexivity|].
  apply (add_stages_one_milestone (Some ".") false later one_staged [wrote_docs]);
    reflexivity.
Defined.

Lemma add_without_message_witness :
  fst (Repository.is_initialized one_staged) = Ok true /\
  given (Some "") = false /\
  Cli.add (Some "") false noon one_staged =
  (Raise (Exit 1),
   mk_world (gyt_dir one_staged)
     (trace one_staged ++
      [Printed "[red]Please provide a milestone message or use --all/-a[/red]"])).
Proof.
  split; [reflexivity|]. split; [reflexivity|].
  apply (add_without_message (Some "") noon one_staged); reflexivity.
Defined.

(** ** [log] *)

Lemma slice_from_last {A} (limit : Z) (l : list A) :
  0 < limit ->
  slice_from (- limit) l = skipn (List.length l - Z.to_nat limit) l.
Proof.
  intros H. unfold slice_from.
  destruct (Z.ltb_spec (- limit) 0); [|lia].
  f_equal. lia.
Qed.

Lemma slice_from_skip {A} (limit : Z) (l : list A) :
  limit <= 0 -> slice_from (- limit) l = skipn (Z.to_nat (- limit)) l.
Proof.
  intros H. unfold slice_from.
  destruct (Z.ltb_spec (- limit) 0); [lia|].
  destruct (Z.min_spec (- limit) (Z.of_nat (List.length l))) as [[_ ->] | [L ->]];
    [reflexivity|].
  rewrite Nat2Z.id. rewrite !skipn_all2; [reflexivity | lia | lia].
Qed.

Lemma log_eq (strftime : datetime -> string) (limit : Z)
      (w : world) (d : dir) (cs : list Commit.t) :
  gyt_dir w = Some d ->
  loaded Commit.from_dict commits_file (Some d) = Ok cs ->
  Cli.log strftime limit w =
  match cs with
  | [] => print "[yellow]No commits yet.[/yellow]" w
  | _ :: _ =>
      for_each (Cli.log_commit strftime)
        (if 0 <? limit then firstn (Z.to_nat limit) (rev cs)
         else rev (skipn (Z.to_nat (- limit)) cs)) w
  end.
Proof.
  intros Hd Hc.
  unfold Cli.log, Cli.ensure_repo, Repository.is_initialized, bind at 1 2.
  unfold dir_exists at 1. rewrite Hd. cbn [negb]. unfold ret at 1.
  unfold bind at 1. rewrite get_commits_eq, Hd, Hc.
  destruct cs as [|c cs]; [reflexivity|].
  destruct (Z.ltb_spec 0 limit).
  - rewrite slice_from_last by assumption. now rewrite firstn_rev.
  - now rewrite slice_from_skip by assumption.
Qed.

(** X17.  [log] shows the [limit] most recent commits, the most recent one
    first, when [limit] is positive.  With [limit] 0 it shows the whole
    history, and with [limit] negative all but the [-limit] oldest commits.
    With an empty history it prints one line. *)
Theorem log_shows_the_latest (strftime : datetime -> string) (limit : Z)
        (w : world) (cs : list Commit.t) :
  fst (Repository.is_initialized w) = Ok true ->
  fst (Repository.get_commits w) = Ok cs ->
  Cli.log strftime limit w =
  match cs with
  | [] => print "[yellow]No commits yet.[/yellow]" w
  | _ :: _ =>
      for_each (Cli.log_commit strftime)
        (if 0 <? limit then firstn (Z.to_nat limit) (rev cs)
         else rev (skipn (Z.to_nat (- limit)) cs)) w
  end.
Proof.
  intros Hi Hc. destruct (is_initialized_dir w Hi) as [d Hd].
  rewrite get_commits_eq, Hd in Hc. cbn [fst] in Hc.
  exact (log_eq strftime limit w d cs Hd Hc).
Qed.

Lemma log_shows_the_latest_witness :
  fst (Repository.is_initialized two_commits) = Ok true /\
  fst (Repository.get_commits two_commits) = Ok [hashed day_one; hashed day_17308] /\
  Cli.log isoformat 1 two_commits =
    for_each (Cli.log_commit isoformat) [hashed day_17308] two_commits /\
  Cli.log isoformat 0 two_commits =
    for_each (Cli.log_commit isoformat) [hashed day_17308; hashed day_one] two_commits.
Proof.
  split; [reflexivity|]. split; [vm_compute; reflexivity|].
  split.
  - apply (log_shows_the_latest isoformat 1 two_commits
             [hashed day_one; hashed day_17308]);
      [reflexivity | vm_compute; reflexivity].
  - apply (log_shows_the_latest isoformat 0 two_commits
             [hashed day_one; hashed day_17308]);
      [reflexivity | vm_compute; reflexivity].
Defined.

(** ** [config] *)

Lemma lookup_get_path (ks : list string) : forall x v,
  lookup_path ks x = Some v -> Cli.get_path ks x = Ok v.
Proof.
  induction ks as [|k ks IH]; intros x v L; cbn in *.
  - now injection L as <-.
  - destruct x as [| | | | |d]; try discriminate. cbn.
    destruct (assoc k d); [now apply IH | discriminate].
Qed.

Lemma get_path_empty (ks : list string) : Cli.get_path ks (JObj []) = Ok (JObj []).
Proof. induction ks as [|k ks IH]; [reflexivity | exact IH]. Qed.

(** X18.  The one-key form of [config] follows the dotted path.  Where the
    path leads to a value, that value is shown; where a segment is missing
    from a mapping, the empty mapping is shown, however long the rest of the
    path; where the path goes on through a value that is no mapping, the
    command ends with an [AttributeError]. *)
Theorem config_get_follows_the_path (cfg : json) (p q : list string) (k : string) :
  (forall v, lookup_path p cfg = Some v -> Cli.get_path p cfg = Ok v) /\
  (forall d, lookup_path p cfg = Some (JObj d) -> assoc k d = None ->
             Cli.get_path (p ++ k :: q) cfg = Ok (JObj [])) /\
  (forall v, lookup_path p cfg = Some v ->
             (forall d, v <> JObj d) ->
             Cli.get_path (p ++ k :: q) cfg = Raise AttributeError).
Proof.
  split; [intros v; apply lookup_get_path|].
  revert cfg. induction p as [|a p IH]; intros cfg; cbn [app lookup_path Cli.get_path].
  - split.
    + intros d E A. injection E as ->. cbn. rewrite A. apply get_path_empty.
    + intros v E N. injection E as ->.
      destruct v; try reflexivity. now destruct (N entries).
  - destruct cfg as [| | | | |d0]; try (split; intros; discriminate).
    cbn [Py.get rbind]. destruct (assoc a d0) as [child|];
      [apply IH | split; intros; discriminate].
Qed.

Lemma config_get_follows_the_path_witness :
  lookup_path ["user"] Repository.default_config =
    Some (JObj [ ("name", JStr ""); ("email", JStr "") ]) /\
  lookup_path ["user"; "name"] Repository.default_config = Some (JStr "") /\
  Cli.get_path ["user"; "name"] Repository.default_config = Ok (JStr "") /\
  Cli.get_path ["user"; "phone"; "home"] Repository.default_config = Ok (JObj []) /\
  Cli.get_path ["user"; "name"; "first"] Repository.default_config =
    Raise AttributeError.
Proof.
  split; [reflexivity|]. split; [reflexivity|].
  split; [|split].
  - apply (proj1 (config_get_follows_the_path Repository.default_config
                    ["user"; "name"] [] "")). reflexivity.
  - apply (proj1 (proj2 (config_get_follows_the_path Repository.default_config
                           ["user"] ["home"] "phone"))
             [ ("name", JStr ""); ("email", JStr "") ]); reflexivity.
  - apply (proj2 (proj2 (config_get_follows_the_path Repository.default_config
                           ["user"; "name"] [] "first")) (JStr ""));
      [reflexivity | discriminate].
Defined.

(** X19.  What [config key value] sets, [config key] shows: after the
    two-argument form succeeds, the one-argument form prints the key and
    the value. *)
Theorem config_set_then_show (repr dumps : json -> string) (key value : string)
        (w w' : world) :
  key <> "" -> value <> "" ->
  Cli.config repr dumps (Some key) (Some value) w = (Ok tt, w') ->
  Cli.config repr dumps (Some key) None w' =
  (Ok tt, mk_world (gyt_dir w') (trace w' ++ [Printed (key ++ " = " ++ value)])).
Proof.
  intros Nk Nv E.
  destruct key as [|a k]; [contradiction|]. destruct value as [|b v]; [contradiction|].
  unfold Cli.config, Cli.ensure_repo, Repository.is_initialized, bind at 1 2 in E.
  unfold dir_exists at 1 in E.
  destruct (gyt_dir w) as [d|] eqn:Hd; cbn [negb] in E; [|discriminate].
  unfold ret at 1 in E. unfold bind at 1 in E.
  destruct (loaded_config (Some d)) as [cfg|e] eqn:Hc.
  - rewrite (set_config_eq w d cfg _ _ Hd Hc) in E.
    destruct (walkable (removelast (split_on "." (String a k))) cfg) eqn:W.
    + destruct (set_path_walkable _ (last (split_on "." (String a k)) "")
                  (JStr (String b v)) cfg W) as (d' & S & L).
      rewrite S in E. unfold print, emit in E. cbn [gyt_dir trace] in E.
      injection E as <-.
      rewrite <- app_removelast_last in L by apply split_on_cons.
      unfold Cli.config, Cli.ensure_repo, Repository.is_initialized, bind at 1 2.
      unfold dir_exists at 1. cbn [gyt_dir negb]. unfold ret at 1.
      unfold bind at 1. rewrite get_config_eq. cbn [gyt_dir loaded_config store config].
      cbn [json_loads]. unfold bind, lift.
      rewrite (lookup_get_path _ _ _ L). reflexivity.
    + rewrite (set_path_stuck _ _ _ cfg W) in E. discriminate.
  - unfold Repository.set_config, bind in E. rewrite get_config_eq, Hd, Hc in E.
    discriminate.
Qed.

Lemma config_set_then_show_witness :
  "a.b.c" <> "" /\ "x" <> "" /\
  Cli.config (fun _ => "") (fun _ => "") (Some "a.b.c") (Some "x") initialized =
    (Ok tt, snd (Cli.config (fun _ => "") (fun _ => "") (Some "a.b.c") (Some "x")
                   initialized)) /\
  fst (Cli.config (fun _ => "") (fun _ => "") (Some "a.b.c") None
         (snd (Cli.config (fun _ => "") (fun _ => "") (Some "a.b.c") (Some "x")
                 initialized))) = Ok tt /\
  last (trace (snd (Cli.config (fun _ => "") (fun _ => "") (Some "a.b.c") None
                      (snd (Cli.config (fun _ => "") (fun _ => "") (Some "a.b.c")
                              (Some "x") initialized))))) MadeDir =
    Printed "a.b.c = x".
Proof.
  split; [discriminate|]. split; [discriminate|]. split; [reflexivity|].
  rewrite (config_set_then_show (fun _ => "") (fun _ => "") "a.b.c" "x" initialized
             (snd (Cli.config (fun _ => "") (fun _ => "") (Some "a.b.c") (Some "x")
                     initialized)));
    [split; reflexivity | discriminate | discriminate | reflexivity].
Defined.

(** * Sessions *)

Lemma quiet_dir {A} (m : M A) (w : world) : quiet m -> gyt_dir (snd (m w)) = gyt_dir w.
Proof. intros Q. destruct (Q w) as (out & -> & _). reflexivity. Qed.

Lemma init_dir_step (w : world) :
  dir_step (gyt_dir w) (gyt_dir (snd (Cli.init w))).
Proof.
  unfold Cli.init, Repository.init, bind, dir_exists.
  destruct w as [[d|] tr]; cbn; constructor.
Qed.

Lemma initialized_of_dir (w : world) (d : dir) :
  gyt_dir w = Some d -> fst (Repository.is_initialized w) = Ok true.
Proof. intros Hd. unfold Repository.is_initialized, dir_exists. cbn. now rewrite Hd. Qed.

Lemma uninitialized_of_dir (w : world) :
  gyt_dir w = None -> fst (Repository.is_initialized w) = Ok false.
Proof. intros Hd. unfold Repository.is_initialized, dir_exists. cbn. now rewrite Hd. Qed.

Lemma gated_dir_step (R : renderer) (c : command) (w : world) :
  c <> CmdInit -> gyt_dir w = None ->
  dir_step (gyt_dir w) (gyt_dir (snd (run R c w))).
Proof.
  intros N Hd. rewrite (gate_closed R c w N Hd). constructor.
Qed.

Lemma add_dir_step (message : option string) (all : bool) (now : datetime) (w : world) :
  valid_datetime now = true ->
  dir_step (gyt_dir w) (gyt_dir (snd (Cli.add message all now w))).
Proof.
  intros Vn.
  destruct (gyt_dir w) as [d|] eqn:Hd.
  2:{ rewrite <- Hd.
      apply (gated_dir_step (mk_renderer (fun s => s) isoformat (fun _ => "") (fun _ => ""))
               (CmdAdd message all now) w); [discriminate | exact Hd]. }
  pose proof (initialized_of_dir w d Hd) as Hi.
  destruct (loaded Milestone.from_dict staging_file (Some d)) as [cur|e] eqn:Hl.
  - destruct (all || match message with
                     | Some m => String.eqb m "."
                     | None => false
                     end) eqn:F.
    + rewrite (add_run message all now w d cur "Daily progress" Hd Hl)
        by (rewrite F; reflexivity).
      apply step_add; auto.
    + apply orb_false_iff in F as [-> F].
      destruct message as [[|c0 s]|].
      * rewrite (add_no_message_run (Some "") now w d Hd eq_refl). cbn.
        rewrite Hd. constructor.
      * rewrite (add_run (Some (String c0 s)) false now w d cur (String c0 s) Hd Hl)
          by (cbn [orb]; rewrite F; split; [reflexivity | discriminate]).
        apply step_add; auto.
      * rewrite (add_no_message_run None now w d Hd eq_refl). cbn.
        rewrite Hd. constructor.
  - assert (E : gyt_dir (snd (Cli.add message all now w)) = gyt_dir w).
    { unfold Cli.add, Cli.ensure_repo, Repository.is_initialized, bind at 1 2.
      unfold dir_exists at 1. rewrite Hd. cbn [negb]. unfold ret at 1.
      unfold bind at 1.
      destruct (all || match message with
                       | Some m => String.eqb m "."
                       | None => false
                       end).
      - unfold ret at 1. unfold bind at 1. unfold Repository.add_milestone, bind.
        rewrite get_staged_milestones_eq, Hd, Hl. cbn. now rewrite Hd.
      - destruct message as [[|c0 s]|].
        + cbn. now rewrite Hd.
        + unfold ret at 1. unfold bind at 1. unfold Repository.add_milestone, bind.
          rewrite get_staged_milestones_eq, Hd, Hl. cbn. now rewrite Hd.
        + cbn. now rewrite Hd. }
    rewrite E, Hd. constructor.
Qed.

Lemma commit_dir_step (message : string) (now : datetime) (w : world) :
  valid_datetime now = true ->
  dir_step (gyt_dir w) (gyt_dir (snd (Cli.commit message now w))).
Proof.
  intros Vn.
  destruct (gyt_dir w) as [d|] eqn:Hd.
  2:{ rewrite <- Hd.
      apply (gated_dir_step (mk_renderer (fun s => s) isoformat (fun _ => "") (fun _ => ""))
               (CmdCommit message now) w); [discriminate | exact Hd]. }
  destruct (loaded Milestone.from_dict staging_file (Some d)) as [[|m ms]|e] eqn:Hl.
  - destruct (commit_empty_run w message now) as [line E].
    { now rewrite Hd. }
    rewrite E. cbn. rewrite Hd. constructor.
  - unfold Cli.commit, Cli.ensure_repo, Repository.is_initialized, bind at 1 2.
    unfold dir_exists at 1. rewrite Hd. cbn [negb]. unfold ret at 1.
    unfold bind at 1. rewrite get_staged_milestones_eq, Hd, Hl.
    unfold bind at 1.
    destruct (loaded Commit.from_dict commits_file (Some d)) as [cs|e] eqn:Hc.
    + rewrite (add_commit_eq w d cs _ Hd Hc).
      unfold bind, Repository.clear_staging, write_text, print, emit. cbn.
      apply (step_commit d m ms cs message now); auto.
    + unfold Repository.add_commit, bind. rewrite get_commits_eq, Hd, Hc. cbn.
      rewrite Hd. constructor.
  - rewrite (commit_unreadable w e message now) by (rewrite Hd; exact Hl).
    cbn. rewrite Hd. constructor.
Qed.

Lemma config_dir_step (repr dumps : json -> string) (key value : option string)
      (w : world) :
  dir_step (gyt_dir w) (gyt_dir (snd (Cli.config repr dumps key value w))).
Proof.
  destruct (given key && given value) eqn:G.
  - destruct key as [[|a k]|]; try discriminate.
    destruct value as [[|b v]|]; try discriminate.
    destruct (gyt_dir w) as [d|] eqn:Hd.
    2:{ rewrite <- Hd.
        apply (gated_dir_step (mk_renderer (fun s => s) isoformat repr dumps)
                 (CmdConfig (Some (String a k)) (Some (String b v))) w);
          [discriminate | exact Hd]. }
    unfold Cli.config, Cli.ensure_repo, Repository.is_initialized, bind at 1 2.
    unfold dir_exists at 1. rewrite Hd. cbn [negb]. unfold ret at 1.
    unfold bind at 1.
    destruct (set_config_dir (String a k) (String b v) w)
      as [E | (d' & entries & cfg & Hd' & Hc & E)].
    + destruct (Repository.set_config (String a k) (String b v) w) as [[[]|e] w1];
        cbn [snd] in E; cbn [snd gyt_dir print emit]; unfold print, emit;
        cbn [snd gyt_dir]; rewrite E, Hd; constructor.
    + rewrite Hd in Hd'. injection Hd' as <-.
      destruct (Repository.set_config (String a k) (String b v) w) as [[[]|e] w1];
        cbn [snd] in E; unfold print, emit; cbn [snd gyt_dir]; rewrite E;
        apply (step_config d cfg entries Hc).
  - rewrite (quiet_dir _ w (quiet_config_read repr dumps key value G)). constructor.
Qed.

Lemma run_dir_step (R : renderer) (c : command) (w : world) :
  clock_ok c = true -> dir_step (gyt_dir w) (gyt_dir (snd (run R c w))).
Proof.
  intros V. destruct c; cbn [run clock_ok] in *.
  - apply init_dir_step.
  - now apply add_dir_step.
  - now apply commit_dir_step.
  - rewrite (quiet_dir _ w (quiet_status _)). constructor.
  - rewrite (quiet_dir _ w (quiet_log _ _)). constructor.
  - apply config_dir_step.
  - rewrite (quiet_dir _ w (quiet_push _)). constructor.
Qed.

Lemma hashed_valid (message : string) (ms : list Milestone.t) (now : datetime) :
  valid_datetime now = true -> forallb Milestone.valid ms = true ->
  Commit.valid (hashed (Commit.mk message ms now None)) = true.
Proof.
  intros Vn Vm. unfold Commit.valid, hashed.
  cbn [Commit.timestamp Commit.milestones]. now rewrite Vn, Vm.
Qed.

Lemma dir_step_history (d d' : option dir) (cs : list Commit.t) (ms : list Milestone.t) :
  dir_step d d' ->
  loaded Commit.from_dict commits_file d = Ok cs ->
  loaded Milestone.from_dict staging_file d = Ok ms ->
  exists more ms',
    loaded Commit.from_dict commits_file d' = Ok (cs ++ more)%list /\
    Forall made more /\
    loaded Milestone.from_dict staging_file d' = Ok ms'.
Proof.
  intros S Hc Hs.
  destruct S as [d | | d cur m Hl Vm _ | d m ms0 cs0 message now Hl Hc0 Vn | d cfg e' _].
  - exists [], ms. rewrite app_nil_r. auto.
  - cbn in Hc. injection Hc as <-. exists [], []. repeat split. constructor.
  - exists [], (cur ++ [m])%list. rewrite app_nil_r.
    split; [rewrite loaded_store_other by discriminate; exact Hc|].
    split; [constructor|].
    cbn. fold (traverse Milestone.from_dict (map Milestone.to_dict (cur ++ [m]))).
    apply milestones_roundtrip. rewrite forallb_app.
    rewrite (loaded_valid_milestones _ _ _ Hl). cbn. now rewrite Vm.
  - rewrite Hc0 in Hc. injection Hc as <-.
    exists [hashed (Commit.mk message (m :: ms0) now None)], [].
    split; [|split].
    + cbn.
      fold (traverse Commit.from_dict
              (map Commit.to_dict
                 (cs0 ++ [hashed (Commit.mk message (m :: ms0) now None)]))).
      apply commits_roundtrip. rewrite forallb_app.
      rewrite (loaded_valid_commits _ _ _ Hc0). cbn [forallb].
      rewrite hashed_valid;
        [reflexivity | exact Vn | exact (loaded_valid_milestones _ _ _ Hl)].
    + constructor; [|constructor]. split; [discriminate | reflexivity].
    + reflexivity.
  - exists [], ms. rewrite app_nil_r.
    rewrite !loaded_store_other by discriminate. auto.
Qed.

Lemma dir_step_documents (d d' : option dir) (entries : list (string * json)) :
  dir_step d d' ->
  loaded_config d = Ok (JObj entries) ->
  (exists entries', loaded_config d' = Ok (JObj entries')) /\
  (d <> None -> d' <> None).
Proof.
  intros S Hg. destruct S as [d | | d cur m _ _ _ | d m ms cs message now _ _ _ | d cfg e' _].
  - split; [eauto | auto].
  - split; [eexists; reflexivity | discriminate].
  - split; [|discriminate]. rewrite loaded_config_store by discriminate. eauto.
  - split; [|discriminate]. rewrite !loaded_config_store by discriminate. eauto.
  - split; [eexists; reflexivity | discriminate].
Qed.

(** X20.  The history only grows.  Whatever commands are run, in whatever
    order and with whatever outcome, the commits that were in the history
    are still there, in their order, followed by those the session made;
    each of these has at least one milestone and carries the hash of its
    timestamp and message. *)
Theorem session_history_grows (R : renderer) (commands : list command) :
  forall (w : world) (cs : list Commit.t) (ms : list Milestone.t),
  fst (Repository.get_commits w) = Ok cs ->
  fst (Repository.get_staged_milestones w) = Ok ms ->
  forallb clock_ok commands = true ->
  exists more,
    fst (Repository.get_commits (session R commands w)) = Ok (cs ++ more)%list /\
    Forall made more.
Proof.
  induction commands as [|c commands IH]; intros w cs ms Hc Hs V.
  - exists []. rewrite app_nil_r. split; [exact Hc | constructor].
  - cbn [forallb] in V. apply andb_true_iff in V as [Vc V].
    rewrite get_commits_eq in Hc. rewrite get_staged_milestones_eq in Hs.
    cbn [fst] in Hc, Hs.
    destruct (dir_step_history _ _ cs ms (run_dir_step R c w Vc) Hc Hs)
      as (more1 & ms1 & Hc1 & M1 & Hs1).
    destruct (IH (snd (run R c w)) (cs ++ more1)%list ms1) as (more2 & Hc2 & M2).
    + now rewrite get_commits_eq.
    + now rewrite get_staged_milestones_eq.
    + exact V.
    + exists (more1 ++ more2)%list. cbn [session fold_left].
      rewrite app_assoc. split; [exact Hc2 | now apply Forall_app].
Qed.

(** X21.  A session keeps the repository readable: if the staging area and
    the history can be read and the configuration is a mapping, they still
    can and it still is after any sequence of commands, and [.gyt], once
    there, stays. *)
Theorem session_keeps_documents_readable (R : renderer) (commands : list command) :
  forall (w : world) (ms : list Milestone.t) (cs : list Commit.t)
         (entries : list (string * json)),
  fst (Repository.get_staged_milestones w) = Ok ms ->
  fst (Repository.get_commits w) = Ok cs ->
  fst (Repository.get_config w) = Ok (JObj entries) ->
  forallb clock_ok commands = true ->
  let w' := session R commands w in
  (exists ms', fst (Repository.get_staged_milestones w') = Ok ms') /\
  (exists cs', fst (Repository.get_commits w') = Ok cs') /\
  (exists entries', fst (Repository.get_config w') = Ok (JObj entries')) /\
  (fst (Repository.is_initialized w) = Ok true ->
   fst (Repository.is_initialized w') = Ok true).
Proof.
  induction commands as [|c commands IH]; intros w ms cs entries Hs Hc Hg V; cbv zeta.
  - cbn [session fold_left]. eauto 10.
  - cbn [forallb] in V. apply andb_true_iff in V as [Vc V].
    pose proof (run_dir_step R c w Vc) as S.
    rewrite get_commits_eq in Hc. rewrite get_staged_milestones_eq in Hs.
    rewrite get_config_eq in Hg. cbn [fst] in Hc, Hs, Hg.
    destruct (dir_step_history _ _ cs ms S Hc Hs) as (more1 & ms1 & Hc1 & _ & Hs1).
    destruct (dir_step_documents _ _ entries S Hg) as ((entries1 & Hg1) & Hd1).
    destruct (IH (snd (run R c w)) ms1 (cs ++ more1)%list entries1)
      as (A & B & C & D).
    + now rewrite get_staged_milestones_eq.
    + now rewrite get_commits_eq.
    + now rewrite get_config_eq.
    + exact V.
    + cbn [session fold_left]. split; [exact A|]. split; [exact B|]. split; [exact C|].
      intros Hi. apply D. destruct (is_initialized_dir w Hi) as [d Hd].
      destruct (gyt_dir (snd (run R c w))) as [d'|] eqn:Hd'.
      * exact (initialized_of_dir _ d' Hd').
      * exfalso. apply Hd1; [rewrite Hd; discriminate | reflexivity].
Qed.

Lemma session_history_grows_witness :
  fst (Repository.get_commits fresh) = Ok [] /\
  fst (Repository.get_staged_milestones fresh) = Ok [] /\
  forallb clock_ok sample_session = true /\
  exists more,
    fst (Repository.get_commits (session plain sample_session fresh)) =
      Ok ([] ++ more)%list /\
    Forall made more.
Proof.
  split; [reflexivity|]. split; [reflexivity|]. split; [reflexivity|].
  apply (session_history_grows plain sample_session fresh [] []); reflexivity.
Defined.

Lemma session_keeps_documents_readable_witness :
  fst (Repository.get_staged_milestones hand_edited) =
    Ok [Milestone.mk "by hand" noon []] /\
  fst (Repository.get_commits hand_edited) = Ok [] /\
  fst (Repository.get_config hand_edited) =
    Ok (JObj [ ("user", JObj [ ("name", JStr ""); ("email", JStr "") ]);
               ("remote", JObj [ ("url", JStr "") ]) ]) /\
  forallb clock_ok sample_session = true /\
  (exists ms', fst (Repository.get_staged_milestones
                      (session plain sample_session hand_edited)) = Ok ms') /\
  (exists cs', fst (Repository.get_commits
                      (session plain sample_session hand_edited)) = Ok cs') /\
  (exists entries', fst (Repository.get_config
                           (session plain sample_session hand_edited)) =
                    Ok (JObj entries')) /\
  (fst (Repository.is_initialized hand_edited) = Ok true ->
   fst (Repository.is_initialized (session plain sample_session hand_edited)) = Ok true).
Proof.
  split; [reflexivity|]. split; [reflexivity|]. split; [reflexivity|].
  split; [reflexivity|].
  exact (session_keeps_documents_readable plain sample_session hand_edited
           [Milestone.mk "by hand" noon []] []
           [ ("user", JObj [ ("name", JStr ""); ("email", JStr "") ]);
             ("remote", JObj [ ("url", JStr "") ]) ]
           eq_refl eq_refl eq_refl eq_refl).
Defined.

(** ** [commit], then [log] *)

Lemma commit_run (message : string) (now : datetime) (w : world) (d : dir)
      (m : Milestone.t) (ms : list Milestone.t) (cs : list Commit.t) :
  gyt_dir w = Some d ->
  loaded Milestone.from_dict staging_file (Some d) = Ok (m :: ms) ->
  loaded Commit.from_dict commits_file (Some d) = Ok cs ->
  let c := hashed (Commit.mk message (m :: ms) now None) in
  let t := json_dumps (JArr (map Commit.to_dict (cs ++ [c]))) in
  Cli.commit message now w =
  (Ok tt,
   mk_world (Some (store staging_file empty_array (store commits_file t d)))
     (trace w ++
      [Wrote commits_file t; Wrote staging_file empty_array;
       Printed ("[green]Committed " ++ Cli.str_nat (List.length (m :: ms)) ++
                " milestone(s):[/green] " ++ message);
       Printed ("[dim]Commit hash: " ++ Repository.hash_of c ++ "[/dim]")])).
Proof.
  intros Hd Hl Hc. cbv zeta.
  unfold Cli.commit, Cli.ensure_repo, Repository.is_initialized, bind at 1 2.
  unfold dir_exists at 1. rewrite Hd. cbn [negb]. unfold ret at 1.
  unfold bind at 1. rewrite get_staged_milestones_eq, Hd, Hl.
  unfold bind at 1. rewrite (add_commit_eq w d cs _ Hd Hc).
  unfold bind, Repository.clear_staging, write_text, print, emit.
  cbn [gyt_dir trace hashed Commit.commit_hash].
  rewrite <- !app_assoc. reflexivity.
Qed.

(** X22.  [commit] reports what it stored: the hash it prints is the hash
    of the commit it appended, and [log] with limit 1, run next, shows that
    commit, with the message given and the milestones that were staged. *)
Theorem commit_then_log (strftime : datetime -> string) (message : string)
        (now : datetime) (w : world) (staged : list Milestone.t) (cs : list Commit.t) :
  fst (Repository.is_initialized w) = Ok true ->
  fst (Repository.get_staged_milestones w) = Ok staged ->
  staged <> [] ->
  fst (Repository.get_commits w) = Ok cs ->
  valid_datetime now = true ->
  exists w' h,
    Cli.commit message now w = (Ok tt, w') /\
    last (trace w') MadeDir = Printed ("[dim]Commit hash: " ++ h ++ "[/dim]") /\
    Cli.log strftime 1 w' =
      for_each (Cli.log_commit strftime) [Commit.mk message staged now (Some h)] w'.
Proof.
  intros Hi Hs Hne Hc Vn. destruct (is_initialized_dir w Hi) as [d Hd].
  rewrite get_staged_milestones_eq, Hd in Hs. rewrite get_commits_eq, Hd in Hc.
  cbn [fst] in Hs, Hc.
  destruct staged as [|m ms]; [contradiction|].
  set (c := hashed (Commit.mk message (m :: ms) now None)).
  set (t := json_dumps (JArr (map Commit.to_dict (cs ++ [c])))).
  set (d' := store staging_file empty_array (store commits_file t d)).
  pose proof (commit_run message now w d m ms cs Hd Hs Hc) as E. cbv zeta in E.
  fold c t d' in E.
  eexists. exists (Repository.hash_of c).
  split; [exact E|]. split.
  - cbn [trace].
    match goal with |- last (?a ++ [?x; ?y; ?z; ?u]) _ = _ =>
      change [x; y; z; u] with ([x; y; z] ++ [u])%list; rewrite app_assoc
    end.
    apply last_last.
  - assert (L : loaded Commit.from_dict commits_file (Some d') = Ok (cs ++ [c])%list).
    { cbn. fold (traverse Commit.from_dict (map Commit.to_dict (cs ++ [c]))).
      apply commits_roundtrip. rewrite forallb_app.
      rewrite (loaded_valid_commits _ _ _ Hc). cbn [forallb].
      unfold c. rewrite hashed_valid;
        [reflexivity | exact Vn | exact (loaded_valid_milestones _ _ _ Hs)]. }
    match goal with |- Cli.log _ _ ?W = _ =>
      rewrite (log_eq strftime 1 W d' (cs ++ [c]) eq_refl L)
    end.
    destruct (cs ++ [c])%list as [|c0 l] eqn:F; [now destruct cs|]. rewrite <- F.
    change (0 <? 1) with true. cbv iota. rewrite rev_app_distr. reflexivity.
Qed.

Lemma commit_then_log_witness :
  fst (Repository.is_initialized one_staged) = Ok true /\
  fst (Repository.get_staged_milestones one_staged) = Ok [wrote_docs] /\
  [wrote_docs] <> [] /\
  fst (Repository.get_commits one_staged) = Ok [] /\
  valid_datetime later = true /\
  exists w' h,
    Cli.commit "day 1" later one_staged = (Ok tt, w') /\
    last (trace w') MadeDir = Printed ("[dim]Commit hash: " ++ h ++ "[/dim]") /\
    Cli.log isoformat 1 w' =
      for_each (Cli.log_commit isoformat)
        [Commit.mk "day 1" [wrote_docs] later (Some h)] w'.
Proof.
  split; [reflexivity|]. split; [reflexivity|]. split; [discriminate|].
  split; [reflexivity|]. split; [reflexivity|].
  apply (commit_then_log isoformat "day 1" later one_staged [wrote_docs] []);
    try reflexivity; discriminate.
Defined.
